(** * iotencoder: startup and shutdown orchestration of the server

    A shallow embedding of [pkg/server/server.go] and of the generated
    twirp code it mounts, [vendor/.../twirp-encoder-go/encoder.twirp.go]
    (modules [encoder], [encoderServer] and [encoderClient] below).  The
    server owns four
    collaborators (the postgres store, the MQTT client, the encoder RPC
    service and the HTTP server) and is "responsible for starting and
    stopping them in the correct order".  Every call that leaves the
    package is recorded in a trace, and the collaborators' answers are
    supplied by a [World]; the Go control flow (early return on a
    non-nil error, panic on a failed type assertion, a call that never
    returns, [os.Exit]) is carried by the [outcome] of a computation. *)

From Stdlib Require Import ZArith.
From stdpp Require Import base option list strings pretty gmap.

(** ** Errors *)

(** A non-nil Go [error].  [withMessage] is what [errors.Wrap] of
    github.com/pkg/errors builds around its cause. *)
Inductive error : Type :=
| errorString (s : string)
| withMessage (cause : error) (msg : string).

(** [errors.Wrap(err, message)] for a non-nil [err]. *)
Definition Wrap (err : error) (message : string) : error :=
  withMessage err message.

(** The [Error()] method: [msg + ": " + cause.Error()]. *)
Fixpoint Error (e : error) : string :=
  match e with
  | errorString s => s
  | withMessage cause msg => msg +:+ ": " +:+ Error cause
  end.

(** [errors.Cause]: the innermost error. *)
Fixpoint Cause (e : error) : error :=
  match e with
  | errorString _ => e
  | withMessage cause _ => Cause cause
  end.

(** ** Time and contexts *)

(** [time.Duration] is an int64 count of nanoseconds. *)
Definition Duration : Type := Z.
Definition Second : Duration := 1000000000%Z.

(** A [context.Context]: only its timeout matters here; [None] is
    [context.Background()]. *)
Record Context : Type := { ctx_timeout : option Duration }.

Definition Background : Context := {| ctx_timeout := None |}.

Definition WithTimeout (parent : Context) (d : Duration) : Context :=
  {| ctx_timeout :=
       match ctx_timeout parent with
       | Some d' => Some (Z.min d' d)
       | None => Some d
       end |}.

(** ** Calls, replies and traces *)

(** The components a [Server] holds. *)
Inductive component : Type := Cdb | Cmqtt | Cenc | Csrv.

(** Calls leaving the server package.  Only [Shutdown] takes a context;
    the lifecycle methods [Start()] and [Stop()] and [MigrateUp()] have
    no parameter.  [RecvStopChan] is the receive [<-stopChan].
    [ServeReturns] is the [ListenAndServe] pending in the goroutine of
    [Start] returning once [Shutdown] has closed the listener. *)
Inductive call : Type :=
| CallStart (c : component)
| CallStop (c : component)
| MigrateUp
| SignalNotify
| ListenAndServe (addr : string)
| Shutdown (ctx : Context)
| Log (keyvals : list string)
| CancelFn
| RecvStopChan
| ServeReturns
| OsExit (code : Z).

(** How a call ends: it returns an [error] value ([None] is nil), it
    panics, or it never returns. *)
Inductive reply : Type :=
| Returns (err : option error)
| Panics (v : string)
| Never.

Record event : Type := Ev { ev_call : call; ev_reply : reply }.

(** The collaborators: what a call answers, given everything that
    happened before it. *)
Definition World : Type := list event → call → reply.

(** How a computation of the server ends. *)
Inductive outcome (A : Type) : Type :=
| Ok (a : A)
| Err (e : error)
| Panicked (v : string)
| Blocked
| Exited (code : Z).
Arguments Ok {A} a.
Arguments Err {A} e.
Arguments Panicked {A} v.
Arguments Blocked {A}.
Arguments Exited {A} code.

(** A Go function returning [error] is an [M unit]: [Ok tt] is the nil
    return, [Err e] the non-nil one. *)
Definition M (A : Type) : Type := World → list event → outcome A * list event.

#[export] Instance M_ret : MRet M := λ A a _ tr, (Ok a, tr).

#[export] Instance M_bind : MBind M := λ A B f m w tr,
  match m w tr with
  | (Ok a, tr') => f a w tr'
  | (Err e, tr') => (Err e, tr')
  | (Panicked v, tr') => (Panicked v, tr')
  | (Blocked, tr') => (Blocked, tr')
  | (Exited n, tr') => (Exited n, tr')
  end.

(** A call into a collaborator, answered by the world. *)
Definition invoke (c : call) : M unit := λ w tr,
  let r := w tr c in
  let tr' := tr ++ [Ev c r] in
  match r with
  | Returns None => (Ok tt, tr')
  | Returns (Some e) => (Err e, tr')
  | Panics v => (Panicked v, tr')
  | Never => (Blocked, tr')
  end.

(** A call whose result the code discards and that is taken to return. *)
Definition note (c : call) : M unit := λ _ tr,
  (Ok tt, tr ++ [Ev c (Returns None)]).

Definition panic {A : Type} (v : string) : M A := λ _ tr, (Panicked v, tr).

(** [if err != nil { return errors.Wrap(err, msg) }] around [m]. *)
Definition orWrap (m : M unit) (msg : string) : M unit := λ w tr,
  match m w tr with
  | (Err e, tr') => (Err (Wrap e msg), tr')
  | r => r
  end.

(** [defer d] in front of [body]: [d] runs when [body] returns or
    panics; it does not run when [body] never returns or the process
    exits. *)
Definition defer (d : call) (body : M unit) : M unit := λ w tr,
  match body w tr with
  | (Blocked, tr') => (Blocked, tr')
  | (Exited n, tr') => (Exited n, tr')
  | (o, tr') => (o, tr' ++ [Ev d (Returns None)])
  end.

(** ** The server *)

Record Logger : Type := { log_context : list string }.

(** [kitlog.With(logger, keyvals...)]. *)
Definition With (l : Logger) (keyvals : list string) : Logger :=
  {| log_context := log_context l ++ keyvals |}.

(** [twirp-datastore-go]'s client: the address it was built for. *)
Record DatastoreClient : Type := { ds_addr : string }.

Definition NewDatastoreProtobufClient (addr : string) : DatastoreClient :=
  {| ds_addr := addr |}.

(** A value of the interface type [postgres.DB].  [db_Component] says
    whether its dynamic type also has the method set of
    [system.Component]. *)
Record DB : Type :=
  { db_connStr : string;
    db_encryptionPassword : string;
    db_Component : bool }.

(** A value of the interface type [mqtt.Client]. *)
Record Client : Type :=
  { mc_db : DB;
    mc_ds : DatastoreClient;
    mc_Component : bool }.

(** [*rpc.Encoder], a concrete type with [Start] and [Stop] methods. *)
Record Encoder : Type := { enc_mqtt : Client; enc_db : DB }.

(** Handlers mounted on the mux. *)
Inductive handler : Type := TwirpHandler (svc : Encoder) | Pulse | Metrics.

Record http_Server : Type :=
  { Addr : string;
    Handler : list (string * handler) }.

Record Server : Type :=
  { srv : http_Server;
    enc : Encoder;
    db : DB;
    mqtt : Client;
    logger : Logger }.

(** [x.(system.Component)], the single-value form: a run-time panic
    when the dynamic type of [x] does not implement the interface. *)
Definition assertion_fault (ty : string) : string :=
  "interface conversion: " +:+ ty +:+ " is not system.Component".

Definition assertComponent (implements : bool) (c : component) (ty : string)
  : M component :=
  if implements then mret c else panic (assertion_fault ty).

Definition Stop (s : Server) : M unit :=
  note (Log ["msg"; "stopping"]);;
  let ctx := WithTimeout Background (5 * Second)%Z in
  defer CancelFn (
    invoke (CallStop Cenc);;
    c ← assertComponent (mc_Component (mqtt s)) Cmqtt "mqtt.Client";
    invoke (CallStop c);;
    c ← assertComponent (db_Component (db s)) Cdb "postgres.DB";
    invoke (CallStop c);;
    invoke (Shutdown ctx)).

(** ** The goroutine of [Start]

    [Start] launches a goroutine that logs, calls [ListenAndServe] and,
    when that returns an error, logs it and calls [os.Exit(1)]; the
    main goroutine meanwhile waits on [stopChan] and then runs [Stop].
    The two are put in one trace as follows.  The goroutine starts at
    once.  The reply to [ListenAndServe] says how the call ends while
    the main goroutine waits: [Returns (Some e)] is a listener that
    fails with [e] before a signal is received, [Never] one that is
    still serving then, [Returns None] a call returning nil.  When the
    listener is still serving and [Stop] has called [Shutdown], the
    listener is closed and the pending call returns to the goroutine:
    the reply to [ServeReturns] is what it returns
    ([http.ErrServerClosed]), or [Never] when the goroutine has not
    got to run before [Start] returns; the code leaves the order of the
    two goroutines open from there, and the goroutine's reaction is
    placed after what the main goroutine does in [Stop].  A listener
    that fails by itself after the signal and before [Shutdown] is not
    among the runs. *)

(** A call answered by the world, and its reply. *)
Definition ask (c : call) : M reply := λ w tr,
  let r := w tr c in (Ok r, tr ++ [Ev c r]).

(** A receive from a channel: it yields a value, or it never does. *)
Definition await (c : call) : M unit :=
  r ← ask c;
  match r with
  | Returns _ => mret tt
  | Panics v => panic v
  | Never => λ _ tr, (Blocked, tr)
  end.

(** [os.Exit(code)]. *)
Definition exit (code : Z) : M unit := λ _ tr,
  (Exited code, tr ++ [Ev (OsExit code) Never]).

(** [http.ErrServerClosed]. *)
Definition ErrServerClosed : error := errorString "http: Server closed".

(** What the goroutine does with the result [r] of [ListenAndServe]:
    [if err != nil { s.logger.Log("err", err); os.Exit(1) }].  The
    result says whether the listener is still serving. *)
Definition served (r : reply) : M bool :=
  match r with
  | Returns (Some err) => note (Log ["err"; Error err]);; exit 1;; mret false
  | Returns None => mret false
  | Panics v => panic v
  | Never => mret true
  end.

(** The [go func() { ... }()] of [Start]. *)
Definition goListenAndServe (s : Server) : M bool :=
  note (Log ["listenAddr"; Addr (srv s); "msg"; "starting server"]);;
  r ← ask (ListenAndServe (Addr (srv s)));
  served r.

Definition shutdownCalled (tr : list event) : bool :=
  existsb (λ e, match ev_call e with Shutdown _ => true | _ => false end) tr.

(** The main goroutine running [m] beside a goroutine whose listener is
    [serving]: once [m] has called [Shutdown] the goroutine's
    [ListenAndServe] returns, and the goroutine may exit the process
    before the main goroutine is heard of. *)
Definition besideGoroutine (serving : bool) (m : M unit) : M unit := λ w tr,
  match m w tr with
  | (Panicked v, tr') => (Panicked v, tr')
  | (Exited n, tr') => (Exited n, tr')
  | (o, tr') =>
      if serving && shutdownCalled tr' then
        match (r ← ask ServeReturns; served r) w tr' with
        | (Ok _, tr'') => (o, tr'')
        | (Err e, tr'') => (Err e, tr'')
        | (Panicked v, tr'') => (Panicked v, tr'')
        | (Blocked, tr'') => (Blocked, tr'')
        | (Exited n, tr'') => (Exited n, tr'')
        end
      else (o, tr')
  end.

Definition Start (s : Server) : M unit :=
  c ← assertComponent (db_Component (db s)) Cdb "postgres.DB";
  orWrap (invoke (CallStart c)) "failed to start db";;
  c ← assertComponent (mc_Component (mqtt s)) Cmqtt "mqtt.Client";
  orWrap (invoke (CallStart c)) "failed to start mqtt client";;
  orWrap (invoke MigrateUp) "failed to migrate the database";;
  orWrap (invoke (CallStart Cenc)) "failed to start encoder";;
  note SignalNotify;;
  serving ← goListenAndServe s;
  await RecvStopChan;;
  besideGoroutine serving (Stop s).

(** Running from the empty history. *)
Definition run {A : Type} (m : M A) (w : World) : outcome A * list event :=
  m w [].

(** ** Reading traces *)

(** The call [c] returned nil at some position before [i]. *)
Definition completes_before (c : call) (i : nat) (tr : list event) : Prop :=
  ∃ j, j < i ∧ tr !! j = Some (Ev c (Returns None)).

(** The components started, in order; the HTTP server is started by
    [ListenAndServe]. *)
Definition starts (tr : list event) : list component :=
  omap (λ e, match ev_call e with
             | CallStart c => Some c
             | ListenAndServe _ => Some Csrv
             | _ => None
             end) tr.

(** The components stopped, in order; the HTTP server is stopped by
    [Shutdown]. *)
Definition stops (tr : list event) : list component :=
  omap (λ e, match ev_call e with
             | CallStop c => Some c
             | Shutdown _ => Some Csrv
             | _ => None
             end) tr.

(** Worlds used as concrete inputs.  In the quiet world every call
    returns nil, the listener serves until it is shut down, and the
    goroutine then gets to run. *)
Definition quiet : World := λ _ c,
  match c with
  | ListenAndServe _ => Never
  | ServeReturns => Returns (Some ErrServerClosed)
  | _ => Returns None
  end.

Definition boom : error := errorString "boom".

(** A server whose database and MQTT handles implement
    [system.Component] or not, as the flags say. *)
Definition a_server_without (dbc mqc : bool) : Server :=
  let d := {| db_connStr := "postgres://x"; db_encryptionPassword := "pw";
              db_Component := dbc |} in
  let m := {| mc_db := d; mc_ds := NewDatastoreProtobufClient "http://ds";
              mc_Component := mqc |} in
  let e := {| enc_mqtt := m; enc_db := d |} in
  {| srv := {| Addr := ":8080"; Handler := [] |};
     enc := e; db := d; mqtt := m; logger := {| log_context := [] |} |}.

Definition a_server : Server := a_server_without true true.

(** Worlds in which the calls picked by [bad] return [boom], or never
    return, and every other call is answered as in the quiet world. *)
Definition failing_at (bad : call → bool) : World :=
  λ tr c, if bad c then Returns (Some boom) else quiet tr c.

Definition never_at (bad : call → bool) : World :=
  λ tr c, if bad c then Never else quiet tr c.

(** The quiet world, except that the goroutine of [Start] has not got
    to run when [Start] returns. *)
Definition goroutine_late : World := λ tr c,
  match c with
  | ServeReturns => Never
  | _ => quiet tr c
  end.

Definition is_MigrateUp (c : call) : bool :=
  match c with MigrateUp => true | _ => false end.

Definition is_Stop_of (c0 : component) (c : call) : bool :=
  match c, c0 with
  | CallStop Cenc, Cenc | CallStop Cmqtt, Cmqtt | CallStop Cdb, Cdb => true
  | _, _ => false
  end.

Definition is_ListenAndServe (c : call) : bool :=
  match c with ListenAndServe _ => true | _ => false end.

Definition is_Start_of (c0 : component) (c : call) : bool :=
  match c, c0 with
  | CallStart Cenc, Cenc | CallStart Cmqtt, Cmqtt | CallStart Cdb, Cdb => true
  | _, _ => false
  end.

Definition is_CancelFn (c : call) : bool :=
  match c with CancelFn => true | _ => false end.

(** The order in which [Start] brings the system up. *)
Definition start_chain (s : Server) : list call :=
  [CallStart Cdb; CallStart Cmqtt; MigrateUp; CallStart Cenc;
   ListenAndServe (Addr (srv s))].

(** The fallible startup steps and the message [Start] wraps around
    the error of each. *)
Definition startup_steps : list (call * string) :=
  [(CallStart Cdb, "failed to start db");
   (CallStart Cmqtt, "failed to start mqtt client");
   (MigrateUp, "failed to migrate the database");
   (CallStart Cenc, "failed to start encoder")].

(** The context a call is handed, if any. *)
Definition ctx_of (c : call) : option Context :=
  match c with
  | Shutdown ctx => Some ctx
  | _ => None
  end.

(** ** Construction *)

(** [encoder.EncoderPathPrefix] of the generated twirp code. *)
Definition EncoderPathPrefix : string := "/twirp/decode.iot.encoder.Encoder/".

(** Modelled from the spec: [postgres.NewDB] (package pkg/postgres is
    not among the sources).  The store keeps the connection string and
    the passphrase it is built with, and is a collaborator with a
    lifecycle. *)
Definition postgres_NewDB (connStr encryptionPassword : string) (logger : Logger)
  : DB :=
  {| db_connStr := connStr;
     db_encryptionPassword := encryptionPassword;
     db_Component := true |}.

(** Modelled from the spec: [mqtt.NewClient] (package pkg/mqtt is not
    among the sources).  The client keeps the store and the datastore
    client it is built with, and is a collaborator with a lifecycle. *)
Definition mqtt_NewClient (logger : Logger) (db : DB) (ds : DatastoreClient)
  : Client :=
  {| mc_db := db; mc_ds := ds; mc_Component := true |}.

(** Modelled from the spec: [rpc.NewEncoder] (package pkg/rpc is not
    among the sources).  The encoder keeps the MQTT client and the
    store it is built with. *)
Definition rpc_NewEncoder (logger : Logger) (mc : Client) (db : DB) : Encoder :=
  {| enc_mqtt := mc; enc_db := db |}.

(** [NewServer]; the one effect left out is the log line
    "creating server". *)
Definition NewServer (addr connStr encryptionPassword : string) (logger : Logger)
  : Server :=
  let db := postgres_NewDB connStr encryptionPassword logger in
  let ds := NewDatastoreProtobufClient "http://192.168.1.116:8081" in
  let mc := mqtt_NewClient logger db ds in
  let enc := rpc_NewEncoder logger mc db in
  let logger := With logger ["module"; "server"] in
  let twirpHandler := TwirpHandler enc in
  let mux := [(EncoderPathPrefix, twirpHandler); ("/pulse", Pulse);
              ("/metrics", Metrics)] in
  let srv := {| Addr := addr; Handler := mux |} in
  {| srv := srv; enc := enc; db := db; mqtt := mc;
     logger := With logger ["module"; "server"] |}.

(** ** The pulse endpoint *)

Record Request : Type :=
  { Method : string;
    Path : string;
    Header : list (string * string);
    Body : string }.

(** An [http.ResponseWriter], as what has been written to it. *)
Record ResponseWriter : Type :=
  { rw_status : option Z;
    rw_header : list (string * string);
    rw_body : string }.

(** [w.Write(p)]: the first write sends status 200 when no status has
    been written. *)
Definition Write (w : ResponseWriter) (p : string) : ResponseWriter :=
  {| rw_status := Some (default 200%Z (rw_status w));
     rw_header := rw_header w;
     rw_body := rw_body w +:+ p |}.

(** [fmt.Fprintf(w, format)] for a format without verbs. *)
Definition Fprintf (w : ResponseWriter) (format : string) : ResponseWriter :=
  Write w format.

Definition PulseHandler (w : ResponseWriter) (r : Request) : ResponseWriter :=
  Fprintf w "ok".

(** ** The create transition of the lifecycle engine *)

Module Lifecycle.

Record StreamSpec : Type :=
  { uid : string;
    topic : string;
    recipientKey : string;
    datastoreTarget : string;
    createdAt : Z }.

Record Subscription : Type :=
  { sub_uid : string; sub_topic : string; sub_handle : nat }.

Inductive RegistryError : Type := Conflict | NotFound | Unavailable.

Inductive CreateError : Type :=
| RegistryFailed (e : RegistryError)
| SubscribeFailed.

(** Storage: the persisted rows.  Whether the store can be reached is
    not part of its state: the store is an external system and every
    call to it can find it unreachable on its own, so each operation
    of the registry takes the reachability [up] of its own call. *)
Record Storage : Type :=
  { rows : gmap string StreamSpec }.

(** Broker: the handle of each live subscription, the next handle to
    give out, and the topics it accepts a subscription for. *)
Record Broker : Type :=
  { live : gmap nat string; next_handle : nat; accepts : string → bool }.

Record Engine : Type :=
  { storage : Storage;
    broker : Broker;
    by_uid : gmap string Subscription;
    by_topic : gmap string (gset string) }.

(** Modelled from the spec: [StreamRegistry.Create] (pkg/postgres is
    not among the sources), "Create(spec) -> error{Conflict,
    Unavailable}", keyed by [uid].  A call that fails writes nothing. *)
Definition Registry_Create (up : bool) (spec : StreamSpec) (st : Storage)
  : RegistryError + Storage :=
  if negb up then inl Unavailable
  else match rows st !! uid spec with
       | Some _ => inl Conflict
       | None => inr {| rows := <[uid spec := spec]> (rows st) |}
       end.

(** Modelled from the spec: [StreamRegistry.Delete], "Delete(uid) ->
    error{NotFound, Unavailable}".  A call that fails deletes
    nothing. *)
Definition Registry_Delete (up : bool) (u : string) (st : Storage)
  : RegistryError + Storage :=
  if negb up then inl Unavailable
  else match rows st !! u with
       | None => inl NotFound
       | Some _ => inr {| rows := delete u (rows st) |}
       end.

(** Modelled from the spec: [Broker.Subscribe] (pkg/mqtt is not among
    the sources), failing with [SubscribeFailed]. *)
Definition Broker_Subscribe (t : string) (br : Broker)
  : CreateError + (nat * Broker) :=
  if accepts br t
  then inr (next_handle br,
            {| live := <[next_handle br := t]> (live br);
               next_handle := S (next_handle br);
               accepts := accepts br |})
  else inl SubscribeFailed.

(** Modelled from the spec: the create transition of §4.2 behind
    [CreateStream] (pkg/rpc is not among the sources): (1) persist the
    spec, aborting on failure; (2) subscribe, deleting the entry just
    written on failure; (3) insert into both maps; (4) return the
    uid.  [u] is the uid generated for the call, [now] its time, and
    [reach n] says whether Storage can be reached by the [n]-th call
    the transition makes to it: call 0 is the [Create] of step (1),
    call 1 the compensating [Delete] of step (2).  The spec gives
    [Delete] the failure [Unavailable] and says nothing of a retry, so
    a compensating delete that fails leaves the entry where it is; the
    call still reports the subscribe failure. *)
Definition CreateStream (reach : nat → bool) (u : string) (now : Z)
    (t key target : string) (e : Engine) : (CreateError + string) * Engine :=
  let spec := {| uid := u; topic := t; recipientKey := key;
                 datastoreTarget := target; createdAt := now |} in
  match Registry_Create (reach 0) spec (storage e) with
  | inl err => (inl (RegistryFailed err), e)
  | inr st1 =>
      match Broker_Subscribe t (broker e) with
      | inl err =>
          let st2 := match Registry_Delete (reach 1) u st1 with
                     | inr st2 => st2
                     | inl _ => st1
                     end in
          (inl err,
           {| storage := st2; broker := broker e;
              by_uid := by_uid e; by_topic := by_topic e |})
      | inr (h, br1) =>
          (inr u,
           {| storage := st1; broker := br1;
              by_uid := <[u := {| sub_uid := u; sub_topic := t;
                                  sub_handle := h |}]> (by_uid e);
              by_topic := <[t := {[u]} ∪ default ∅ (by_topic e !! t)]>
                            (by_topic e) |})
      end
  end.

(** An engine with nothing stored; [acc] says which topics its broker
    accepts. *)
Definition empty_engine (acc : string → bool) : Engine :=
  {| storage := {| rows := ∅ |};
     broker := {| live := ∅; next_handle := 0; accepts := acc |};
     by_uid := ∅; by_topic := ∅ |}.

(** Storage reachable at every call, and Storage lost after the first
    call. *)
Definition always_up : nat → bool := λ _, true.
Definition lost_after_first : nat → bool := λ n, Nat.eqb n 0.

End Lifecycle.

(** ** Twirp errors

    The part of github.com/twitchtv/twirp the generated code builds
    its errors with. *)

Module twirp.

(** [type ErrorCode string], with the wire values of the codes the
    generated code names. *)
Definition ErrorCode : Type := string.

Definition Internal : ErrorCode := "internal".
Definition Unauthenticated : ErrorCode := "unauthenticated".
Definition PermissionDenied : ErrorCode := "permission_denied".
Definition BadRoute : ErrorCode := "bad_route".
Definition Unavailable : ErrorCode := "unavailable".
Definition Unknown : ErrorCode := "unknown".

Record Error : Type :=
  { Code : ErrorCode;
    Msg : string;
    MetaMap : gmap string string }.

(** [twirp.NewError]; the generated code hands it twirp's own codes or
    a code it has checked with [IsValidErrorCode], so the constructor's
    fallback for an invalid code is never taken. *)
Definition NewError (code : ErrorCode) (msg : string) : Error :=
  {| Code := code; Msg := msg; MetaMap := ∅ |}.

Definition WithMeta (e : Error) (key val : string) : Error :=
  {| Code := Code e; Msg := Msg e; MetaMap := <[key := val]> (MetaMap e) |}.

(** [Meta(key)]: the value, or the empty string. *)
Definition Meta (e : Error) (key : string) : string :=
  default EmptyString (MetaMap e !! key).

Definition InternalError (msg : string) : Error := NewError Internal msg.

End twirp.

(** ** The generated twirp code: helpers

    [vendor/github.com/thingful/twirp-encoder-go/encoder.twirp.go]. *)

Module encoder.

(** Headers as the list of their fields; [Get] reads the first field of
    a name, [Set] replaces all of them. *)
Definition header_get (key : string) (h : list (string * string)) : string :=
  match List.find (λ kv, String.eqb kv.1 key) h with
  | Some kv => kv.2
  | None => EmptyString
  end.

Definition header_set (key val : string) (h : list (string * string))
  : list (string * string) :=
  (key, val) :: List.filter (λ kv, negb (String.eqb kv.1 key)) h.

(** [strconv.Itoa]. *)
Definition Itoa (n : Z) : string := pretty n.

(** [s[:n]] for [n] within the string. *)
Fixpoint string_take (n : nat) (s : string) : string :=
  match n, s with
  | S n', String c s' => String c (string_take n' s')
  | _, _ => EmptyString
  end.

(** [strings.Index(s, ";")]: the position of the first [;], or the
    length of [s] where Go answers -1 and the caller takes [len(s)]. *)
Fixpoint index_semicolon (s : string) : nat :=
  match s with
  | EmptyString => 0
  | String c s' => if Ascii.eqb c (Ascii.ascii_of_nat 59) then 0 else S (index_semicolon s')
  end.

Definition isHTTPRedirect (status : Z) : bool :=
  (300 <=? status)%Z && (status <=? 399)%Z.

Definition twirpErrorFromIntermediary (status : Z) (msg bodyOrLocation : string)
  : twirp.Error :=
  let code :=
    if isHTTPRedirect status then twirp.Internal
    else if (status =? 400)%Z then twirp.Internal
    else if (status =? 401)%Z then twirp.Unauthenticated
    else if (status =? 403)%Z then twirp.PermissionDenied
    else if (status =? 404)%Z then twirp.BadRoute
    else if ((status =? 429) || (status =? 502) || (status =? 503)
             || (status =? 504))%Z then twirp.Unavailable
    else twirp.Unknown in
  let twerr := twirp.NewError code msg in
  let twerr := twirp.WithMeta twerr "http_error_from_intermediary" "true" in
  let twerr := twirp.WithMeta twerr "status_code" (Itoa status) in
  if isHTTPRedirect status
  then twirp.WithMeta twerr "location" bodyOrLocation
  else twirp.WithMeta twerr "body" bodyOrLocation.

(** [wrappedError]: [wrapErr], and its [Cause] and [Error] methods are
    [withMessage] and its projections. *)
Definition wrapErr (err : error) (msg : string) : error := withMessage err msg.

Definition badRouteError (msg method url : string) : twirp.Error :=
  let err := twirp.NewError twirp.BadRoute msg in
  twirp.WithMeta err "twirp_invalid_route" (method +:+ " " +:+ url).

(** JSON serialization for errors. *)
Record twerrJSON : Type :=
  { Code : string;
    Msg : string;
    Meta : gmap string string }.

(** The record [marshalErrorToJSON] serializes: the message is cut to
    its first 1e6 bytes. *)
Definition errorJSON (twerr : twirp.Error) : twerrJSON :=
  let msg := twirp.Msg twerr in
  let msg := if (1000000 <? Z.of_nat (String.length msg))%Z
             then string_take (Z.to_nat 1000000) msg
             else msg in
  {| Code := twirp.Code twerr; Msg := msg; Meta := twirp.MetaMap twerr |}.

Definition dquote : string := String (Ascii.ascii_of_nat 34) EmptyString.

(** A non-200 response as the client reads it; [RespBody] is the result
    of [ioutil.ReadAll]. *)
Record Response : Type :=
  { StatusCode : Z;
    RespHeader : list (string * string);
    RespBody : error + string }.

Section Codec.

(** Functions of the Go libraries the helpers call. *)
Variable jsonMarshal : twerrJSON → option string.
Variable jsonUnmarshal : string → option twerrJSON.
Variable Quote : string → string.
Variable StatusText : Z → string.
Variable IsValidErrorCode : twirp.ErrorCode → bool.
Variable InternalErrorWith : error → twirp.Error.

Definition marshalErrorToJSON (twerr : twirp.Error) : string :=
  match jsonMarshal (errorJSON twerr) with
  | Some buf => buf
  | None =>
      "{" +:+ dquote +:+ "type" +:+ dquote +:+ ": " +:+ dquote +:+
      twirp.Internal +:+ dquote +:+ ", " +:+ dquote +:+ "msg" +:+ dquote +:+
      ": " +:+ dquote +:+
      "There was an error but it could not be serialized into JSON" +:+
      dquote +:+ "}"
  end.

Definition clientError (desc : string) (err : error) : twirp.Error :=
  InternalErrorWith (wrapErr err desc).

Definition errorFromResponse (resp : Response) : twirp.Error :=
  let statusCode := StatusCode resp in
  let statusText := StatusText statusCode in
  if isHTTPRedirect statusCode then
    let location := header_get "Location" (RespHeader resp) in
    let msg := "unexpected HTTP status code " +:+ Itoa statusCode +:+ " " +:+
               Quote statusText +:+ " received, Location=" +:+ Quote location in
    twirpErrorFromIntermediary statusCode msg location
  else
    match RespBody resp with
    | inl err => clientError "failed to read server error response body" err
    | inr respBodyBytes =>
        match jsonUnmarshal respBodyBytes with
        | None =>
            let msg := "Error from intermediary with HTTP status code " +:+
                       Itoa statusCode +:+ " " +:+ Quote statusText in
            twirpErrorFromIntermediary statusCode msg respBodyBytes
        | Some tj =>
            let errorCode := Code tj in
            if negb (IsValidErrorCode errorCode) then
              twirp.InternalError
                ("invalid type returned from server error response: " +:+ Code tj)
            else
              map_fold (λ k v twerr, twirp.WithMeta twerr k v)
                       (twirp.NewError errorCode (Msg tj)) (Meta tj)
        end
    end.

End Codec.

End encoder.

(** ** The generated twirp code: the server handler *)

Module encoderServer.

(** The values the handler stores in the request context. *)
Record reqctx : Type :=
  { PackageName : string;
    ServiceName : string;
    MethodName : string;
    ctxStatusCode : option Z }.

Definition WithPackageName (ctx : reqctx) (name : string) : reqctx :=
  {| PackageName := name; ServiceName := ServiceName ctx;
     MethodName := MethodName ctx; ctxStatusCode := ctxStatusCode ctx |}.

Definition WithServiceName (ctx : reqctx) (name : string) : reqctx :=
  {| PackageName := PackageName ctx; ServiceName := name;
     MethodName := MethodName ctx; ctxStatusCode := ctxStatusCode ctx |}.

Definition WithMethodName (ctx : reqctx) (name : string) : reqctx :=
  {| PackageName := PackageName ctx; ServiceName := ServiceName ctx;
     MethodName := name; ctxStatusCode := ctxStatusCode ctx |}.

Definition WithStatusCode (ctx : reqctx) (code : Z) : reqctx :=
  {| PackageName := PackageName ctx; ServiceName := ServiceName ctx;
     MethodName := MethodName ctx; ctxStatusCode := Some code |}.

(** A Go [error] reaching [writeError]: a [twirp.Error], or another
    error. *)
Definition goerror : Type := twirp.Error + error.

(** [twirp.ServerHooks]; an absent hook is a nil field.  [ResponseSent]
    returns nothing, so only its presence is kept; [ErrorHook] is the
    field [Error]. *)
Record ServerHooks : Type :=
  { RequestReceived : option (reqctx → reqctx * option goerror);
    RequestRouted : option (reqctx → reqctx * option goerror);
    ResponsePrepared : option (reqctx → reqctx);
    ResponseSent : bool;
    ErrorHook : option (reqctx → twirp.Error → reqctx) }.

(** The hook calls made while a request is handled. *)
Inductive hook_event : Type :=
| EvRequestReceived (ctx : reqctx)
| EvRequestRouted (ctx : reqctx)
| EvResponsePrepared (ctx : reqctx)
| EvResponseSent (ctx : reqctx)
| EvError (ctx : reqctx) (twerr : twirp.Error).

(** The state of one request: the response so far, the number of
    [WriteHeader] calls, and the hooks called. *)
Record exchange : Type :=
  { resp : ResponseWriter;
    headerWrites : nat;
    hooklog : list hook_event }.

(** How a handler ends: [Some r] is a panic with value [r]. *)
Record handled : Type := { after : exchange; panicked : option string }.

Definition returned (x : exchange) : handled :=
  {| after := x; panicked := None |}.

Definition logged (x : exchange) (e : hook_event) : exchange :=
  {| resp := resp x; headerWrites := headerWrites x;
     hooklog := hooklog x ++ [e] |}.

Definition callRequestReceived (ctx : reqctx) (h : option ServerHooks)
    (x : exchange) : reqctx * option goerror * exchange :=
  match h with
  | None => (ctx, None, x)
  | Some h =>
      match RequestReceived h with
      | None => (ctx, None, x)
      | Some f => (f ctx, logged x (EvRequestReceived ctx))
      end
  end.

Definition callRequestRouted (ctx : reqctx) (h : option ServerHooks)
    (x : exchange) : reqctx * option goerror * exchange :=
  match h with
  | None => (ctx, None, x)
  | Some h =>
      match RequestRouted h with
      | None => (ctx, None, x)
      | Some f => (f ctx, logged x (EvRequestRouted ctx))
      end
  end.

Definition callResponsePrepared (ctx : reqctx) (h : option ServerHooks)
    (x : exchange) : reqctx * exchange :=
  match h with
  | None => (ctx, x)
  | Some h =>
      match ResponsePrepared h with
      | None => (ctx, x)
      | Some f => (f ctx, logged x (EvResponsePrepared ctx))
      end
  end.

Definition callResponseSent (ctx : reqctx) (h : option ServerHooks)
    (x : exchange) : exchange :=
  match h with
  | None => x
  | Some h => if ResponseSent h then logged x (EvResponseSent ctx) else x
  end.

Definition callError (ctx : reqctx) (h : option ServerHooks)
    (err : twirp.Error) (x : exchange) : reqctx * exchange :=
  match h with
  | None => (ctx, x)
  | Some h =>
      match ErrorHook h with
      | None => (ctx, x)
      | Some f => (f ctx err, logged x (EvError ctx err))
      end
  end.

(** [resp.Header().Set(key, val)]. *)
Definition Header_Set (x : exchange) (key val : string) : exchange :=
  {| resp := {| rw_status := rw_status (resp x);
                rw_header := encoder.header_set key val (rw_header (resp x));
                rw_body := rw_body (resp x) |};
     headerWrites := headerWrites x;
     hooklog := hooklog x |}.

(** [resp.WriteHeader(code)]: the first status written is the one
    sent. *)
Definition WriteHeader (x : exchange) (code : Z) : exchange :=
  {| resp := match rw_status (resp x) with
             | Some _ => resp x
             | None => {| rw_status := Some code;
                          rw_header := rw_header (resp x);
                          rw_body := rw_body (resp x) |}
             end;
     headerWrites := S (headerWrites x);
     hooklog := hooklog x |}.

(** What the service answers: its two results, or a panic. *)
Inductive svc_reply (R : Type) : Type :=
| SvcReturns (respContent : option R) (err : option goerror)
| SvcPanics (r : string).
Arguments SvcReturns {R} respContent err.
Arguments SvcPanics {R} r.

Section Handler.

Variables CreateStreamRequest CreateStreamResponse : Type.
Variables DeleteStreamRequest DeleteStreamResponse : Type.

(** The [Encoder] interface. *)
Record Encoder : Type :=
  { CreateStream : reqctx → CreateStreamRequest → svc_reply CreateStreamResponse;
    DeleteStream : reqctx → DeleteStreamRequest → svc_reply DeleteStreamResponse }.

Record encoderServer : Type :=
  { svc : Encoder; hooks : option ServerHooks }.

Definition NewEncoderServer (svc : Encoder) (hooks : option ServerHooks)
  : encoderServer :=
  {| svc := svc; hooks := hooks |}.

(** Functions of the Go libraries the handler calls. *)
Variable jsonMarshal : encoder.twerrJSON → option string.
Variable Quote : string → string.
Variable ToLower : string → string.
Variable TrimSpace : string → string.
Variable InternalErrorWith : error → twirp.Error.
Variable ServerHTTPStatusFromErrorCode : twirp.ErrorCode → Z.
Variable ReadAll : string → error + string.

(** [resp.Write(p)] of the connection: [Some (n, err)] when it fails
    after [n] bytes. *)
Variable writeFails : ResponseWriter → string → option (nat * error).

Definition respWrite (x : exchange) (p : string)
  : exchange * option (nat * error) :=
  let out := match writeFails (resp x) p with
             | None => p
             | Some (n, _) => encoder.string_take n p
             end in
  ({| resp := Write (resp x) out; headerWrites := headerWrites x;
      hooklog := hooklog x |},
   writeFails (resp x) p).

(** The response on a connection nothing had been written to, once a
    handler has set the content type, written the status and then
    written [body]: the body sent is what the connection took of it. *)
Definition answer (status : Z) (contentType body : string) : ResponseWriter :=
  let w := {| rw_status := Some status;
              rw_header := [("Content-Type", contentType)];
              rw_body := EmptyString |} in
  Write w match writeFails w body with
          | None => body
          | Some (n, _) => encoder.string_take n body
          end.

Definition writeError (ctx : reqctx) (x : exchange) (err : goerror)
    (hooks : option ServerHooks) : exchange :=
  let twerr := match err with
               | inl twerr => twerr
               | inr err => InternalErrorWith err
               end in
  let statusCode := ServerHTTPStatusFromErrorCode (twirp.Code twerr) in
  let ctx := WithStatusCode ctx statusCode in
  let '(ctx, x) := callError ctx hooks twerr x in
  let x := Header_Set x "Content-Type" "application/json" in
  let x := WriteHeader x statusCode in
  let respBody := encoder.marshalErrorToJSON jsonMarshal twerr in
  let '(x, _) := respWrite x respBody in
  callResponseSent ctx hooks x.

(** The body shared by the four generated handlers, which differ only
    in the method, the content type and the codec: [decode] reads the
    request from the body and [encode] writes the response, each
    failing with the error the handler has wrapped in its message. *)
Definition serveMethod {Req Resp : Type}
    (methodName respType contentType : string)
    (decode : string → error + Req) (encode : Resp → error + string)
    (call : reqctx → Req → svc_reply Resp)
    (s : encoderServer) (ctx : reqctx) (x : exchange) (req : Request)
  : handled :=
  let ctx := WithMethodName ctx methodName in
  let '(ctx, err, x) := callRequestRouted ctx (hooks s) x in
  match err with
  | Some err => returned (writeError ctx x err (hooks s))
  | None =>
  match decode (Body req) with
  | inl err =>
      returned (writeError ctx x (inl (InternalErrorWith err)) (hooks s))
  | inr reqContent =>
  match call ctx reqContent with
  | SvcPanics r =>
      {| after := writeError ctx x
                    (inl (twirp.InternalError "Internal service panic")) (hooks s);
         panicked := Some r |}
  | SvcReturns _ (Some err) => returned (writeError ctx x err (hooks s))
  | SvcReturns None None =>
      returned (writeError ctx x
        (inl (twirp.InternalError
                ("received a nil *" +:+ respType +:+
                 " and nil error while calling " +:+ methodName +:+
                 ". nil responses are not supported"))) (hooks s))
  | SvcReturns (Some respContent) None =>
      let '(ctx, x) := callResponsePrepared ctx (hooks s) x in
      match encode respContent with
      | inl err =>
          returned (writeError ctx x (inl (InternalErrorWith err)) (hooks s))
      | inr respBytes =>
          let ctx := WithStatusCode ctx 200 in
          let x := Header_Set x "Content-Type" contentType in
          let x := WriteHeader x 200 in
          let '(x, werr) := respWrite x respBytes in
          let x := match werr with
                   | Some (n, err) =>
                       let msg := "failed to write response, " +:+
                                  pretty n +:+ " of " +:+
                                  pretty (String.length respBytes) +:+
                                  " bytes written: " +:+ Error err in
                       (callError ctx (hooks s)
                          (twirp.NewError twirp.Unknown msg) x).2
                   | None => x
                   end in
          returned (callResponseSent ctx (hooks s) x)
      end
  end end end.

(** The codecs of jsonpb and proto for the four messages. *)
Variable jsonUnmarshalCreate : string → error + CreateStreamRequest.
Variable jsonMarshalCreate : CreateStreamResponse → error + string.
Variable protoUnmarshalCreate : string → error + CreateStreamRequest.
Variable protoMarshalCreate : CreateStreamResponse → error + string.
Variable jsonUnmarshalDelete : string → error + DeleteStreamRequest.
Variable jsonMarshalDelete : DeleteStreamResponse → error + string.
Variable protoUnmarshalDelete : string → error + DeleteStreamRequest.
Variable protoMarshalDelete : DeleteStreamResponse → error + string.

Definition wrapping {A : Type} (msg : string) (r : error + A) : error + A :=
  match r with
  | inl err => inl (encoder.wrapErr err msg)
  | inr a => inr a
  end.

(** The Protobuf handlers read the whole body before parsing it. *)
Definition readThen {A : Type} (parse : string → error + A) (body : string)
  : error + A :=
  match wrapping "failed to read request body" (ReadAll body) with
  | inl err => inl err
  | inr buf => wrapping "failed to parse request proto" (parse buf)
  end.

Definition serveCreateStreamJSON : encoderServer → reqctx → exchange → Request → handled :=
  λ s, serveMethod "CreateStream" "CreateStreamResponse" "application/json"
    (λ body, wrapping "failed to parse request json" (jsonUnmarshalCreate body))
    (λ r, wrapping "failed to marshal json response" (jsonMarshalCreate r))
    (CreateStream (svc s)) s.

Definition serveCreateStreamProtobuf : encoderServer → reqctx → exchange → Request → handled :=
  λ s, serveMethod "CreateStream" "CreateStreamResponse" "application/protobuf"
    (readThen protoUnmarshalCreate)
    (λ r, wrapping "failed to marshal proto response" (protoMarshalCreate r))
    (CreateStream (svc s)) s.

Definition serveDeleteStreamJSON : encoderServer → reqctx → exchange → Request → handled :=
  λ s, serveMethod "DeleteStream" "DeleteStreamResponse" "application/json"
    (λ body, wrapping "failed to parse request json" (jsonUnmarshalDelete body))
    (λ r, wrapping "failed to marshal json response" (jsonMarshalDelete r))
    (DeleteStream (svc s)) s.

Definition serveDeleteStreamProtobuf : encoderServer → reqctx → exchange → Request → handled :=
  λ s, serveMethod "DeleteStream" "DeleteStreamResponse" "application/protobuf"
    (readThen protoUnmarshalDelete)
    (λ r, wrapping "failed to marshal proto response" (protoMarshalDelete r))
    (DeleteStream (svc s)) s.

(** The media type of a [Content-Type] header: what precedes the first
    [;], in lower case and trimmed. *)
Definition mediaType (header : string) : string :=
  let i := encoder.index_semicolon header in
  TrimSpace (ToLower (encoder.string_take i header)).

(** [serveCreateStream] and [serveDeleteStream]: the choice of the
    variant by the content type. *)
Definition serveByContentType
    (json protobuf : encoderServer → reqctx → exchange → Request → handled)
    (s : encoderServer) (ctx : reqctx) (x : exchange) (req : Request)
  : handled :=
  let header := encoder.header_get "Content-Type" (Header req) in
  let mt := mediaType header in
  if String.eqb mt "application/json" then json s ctx x req
  else if String.eqb mt "application/protobuf" then protobuf s ctx x req
  else
    let msg := "unexpected Content-Type: " +:+
               Quote (encoder.header_get "Content-Type" (Header req)) in
    let twerr := encoder.badRouteError msg (Method req) (Path req) in
    returned (writeError ctx x (inl twerr) (hooks s)).

Definition serveCreateStream : encoderServer → reqctx → exchange → Request → handled :=
  serveByContentType serveCreateStreamJSON serveCreateStreamProtobuf.

Definition serveDeleteStream : encoderServer → reqctx → exchange → Request → handled :=
  serveByContentType serveDeleteStreamJSON serveDeleteStreamProtobuf.

(** The context of the request, before the handler stores anything. *)
Definition reqContext : reqctx :=
  {| PackageName := EmptyString; ServiceName := EmptyString;
     MethodName := EmptyString; ctxStatusCode := None |}.

(** [ServeHTTP]; the response writer the source also stores in the
    context is the one of the exchange [x] passed along. *)
Definition ServeHTTP (s : encoderServer) (x : exchange) (req : Request)
  : handled :=
  let ctx := reqContext in
  let ctx := WithPackageName ctx "decode.iot.encoder" in
  let ctx := WithServiceName ctx "Encoder" in
  let '(ctx, err, x) := callRequestReceived ctx (hooks s) x in
  match err with
  | Some err => returned (writeError ctx x err (hooks s))
  | None =>
      if negb (String.eqb (Method req) "POST") then
        let msg := "unsupported method " +:+ Quote (Method req) +:+
                   " (only POST is allowed)" in
        let err := encoder.badRouteError msg (Method req) (Path req) in
        returned (writeError ctx x (inl err) (hooks s))
      else if String.eqb (Path req)
                "/twirp/decode.iot.encoder.Encoder/CreateStream"
      then serveCreateStream s ctx x req
      else if String.eqb (Path req)
                "/twirp/decode.iot.encoder.Encoder/DeleteStream"
      then serveDeleteStream s ctx x req
      else
        let msg := "no handler for path " +:+ Quote (Path req) in
        let err := encoder.badRouteError msg (Method req) (Path req) in
        returned (writeError ctx x (inl err) (hooks s))
  end.

End Handler.

Arguments svc {_ _ _ _} e.
Arguments hooks {_ _ _ _} e.
Arguments CreateStream {_ _ _ _} e ctx req.
Arguments DeleteStream {_ _ _ _} e ctx req.
Arguments NewEncoderServer {_ _ _ _} svc hooks.

(** A response nothing has been written to. *)
Definition fresh : exchange :=
  {| resp := {| rw_status := None; rw_header := []; rw_body := EmptyString |};
     headerWrites := 0; hooklog := [] |}.

Definition is_sent (e : hook_event) : bool :=
  match e with EvResponseSent _ => true | _ => false end.

Definition is_error (e : hook_event) : bool :=
  match e with EvError _ _ => true | _ => false end.

(** How often the [ResponseSent] and the [Error] hook have been called. *)
Definition sentCount (x : exchange) : nat :=
  length (List.filter is_sent (hooklog x)).

Definition errorCount (x : exchange) : nat :=
  length (List.filter is_error (hooklog x)).

Definition hasResponseSent (h : option ServerHooks) : bool :=
  match h with
  | Some h => ResponseSent h
  | None => false
  end.

(** From [x] to [x'] one response has been given: one status line
    written, the [ResponseSent] hook, if any, called once, and the
    [Error] hook at most once. *)
Definition answered (h : option ServerHooks) (x x' : exchange) : Prop :=
  headerWrites x' = S (headerWrites x) ∧
  is_Some (rw_status (resp x')) ∧
  sentCount x' = sentCount x + (if hasResponseSent h then 1 else 0) ∧
  errorCount x' ≤ errorCount x + 1.

(** Only the hook log differs between [x] and [x'], and neither the
    [ResponseSent] nor the [Error] hook is among the calls added. *)
Definition hooked (x x' : exchange) : Prop :=
  resp x' = resp x ∧ headerWrites x' = headerWrites x ∧
  sentCount x' = sentCount x ∧ errorCount x' = errorCount x.

End encoderServer.

(** ** The generated twirp code: the client *)

Module encoderClient.

(** An [http.Request] as the client builds it. *)
Record HTTPRequest : Type :=
  { rMethod : string;
    rURL : string;
    rHeader : list (string * string);
    rBody : string }.

(** The context of a call: the headers set with
    [twirp.WithHTTPRequestHeaders], if any, and what [ctx.Err()]
    answers the first, second and third time it is asked. *)
Record callctx : Type :=
  { customHeader : option (list (string * string));
    Err : nat → option error }.

(** How a request ends: the error returned, the value decoded into
    [out], the requests handed to the HTTP client and the number of
    times a response body was closed. *)
Record result (Out : Type) : Type :=
  { ret : option twirp.Error;
    out : option Out;
    requests : list HTTPRequest;
    closes : nat }.
Arguments ret {Out} r.
Arguments out {Out} r.
Arguments requests {Out} r.
Arguments closes {Out} r.

Definition failed {Out : Type} (err : twirp.Error) : result Out :=
  {| ret := Some err; out := None; requests := []; closes := 0 |}.

Section Client.

Variables In Out : Type.

(** Functions of the Go libraries the client calls. *)
Variable protoMarshal : In → error + string.
Variable protoUnmarshal : string → error + Out.
Variable jsonpbMarshal : In → error + string.
Variable jsonpbUnmarshal : string → error + Out.
Variable jsonUnmarshal : string → option encoder.twerrJSON.
Variable Quote : string → string.
Variable StatusText : Z → string.
Variable IsValidErrorCode : twirp.ErrorCode → bool.
Variable InternalErrorWith : error → twirp.Error.

(** [http.NewRequest]; it fails on a URL it cannot parse. *)
Variable NewRequest : string → string → string → error + HTTPRequest.

(** The HTTP client's [Do], and [Close] of a response's body. *)
Variable Do : HTTPRequest → error + encoder.Response.
Variable Close : encoder.Response → option error.

Definition getCustomHTTPReqHeaders (ctx : callctx)
  : option (list (string * string)) :=
  customHeader ctx.

Definition Header_Set (req : HTTPRequest) (key val : string) : HTTPRequest :=
  {| rMethod := rMethod req; rURL := rURL req;
     rHeader := encoder.header_set key val (rHeader req);
     rBody := rBody req |}.

Definition newRequest (ctx : callctx) (url reqBody contentType : string)
  : error + HTTPRequest :=
  match NewRequest "POST" url reqBody with
  | inl err => inl err
  | inr req =>
      let req := match getCustomHTTPReqHeaders ctx with
                 | Some customHeader =>
                     {| rMethod := rMethod req; rURL := rURL req;
                        rHeader := customHeader; rBody := rBody req |}
                 | None => req
                 end in
      let req := Header_Set req "Accept" contentType in
      let req := Header_Set req "Content-Type" contentType in
      let req := Header_Set req "Twirp-Version" "v5.5.0" in
      inr req
  end.

Definition clientError (desc : string) (err : error) : twirp.Error :=
  encoder.clientError InternalErrorWith desc err.

Definition errorFromResponse (resp : encoder.Response) : twirp.Error :=
  encoder.errorFromResponse jsonUnmarshal Quote StatusText IsValidErrorCode
    InternalErrorWith resp.

(** The deferred function of both requests: the body is closed, and the
    error of closing it is returned only when there is no other. *)
Definition closing (req : HTTPRequest) (resp : encoder.Response)
    (body : option twirp.Error * option Out) : result Out :=
  let err := match body.1, Close resp with
             | None, Some cerr =>
                 Some (clientError "failed to close response body" cerr)
             | err, _ => err
             end in
  {| ret := err; out := body.2; requests := [req]; closes := 1 |}.

Definition doProtobufRequest (ctx : callctx) (url : string) (in_ : In)
  : result Out :=
  match protoMarshal in_ with
  | inl err => failed (clientError "failed to marshal proto request" err)
  | inr reqBodyBytes =>
  match Err ctx 0 with
  | Some err => failed (clientError "aborted because context was done" err)
  | None =>
  match newRequest ctx url reqBodyBytes "application/protobuf" with
  | inl err => failed (clientError "could not build request" err)
  | inr req =>
  match Do req with
  | inl err =>
      {| ret := Some (clientError "failed to do request" err); out := None;
         requests := [req]; closes := 0 |}
  | inr resp =>
      closing req resp
        match Err ctx 1 with
        | Some err =>
            (Some (clientError "aborted because context was done" err), None)
        | None =>
        if negb (encoder.StatusCode resp =? 200)%Z
        then (Some (errorFromResponse resp), None)
        else
        match encoder.RespBody resp with
        | inl err => (Some (clientError "failed to read response body" err), None)
        | inr respBodyBytes =>
        match Err ctx 2 with
        | Some err =>
            (Some (clientError "aborted because context was done" err), None)
        | None =>
        match protoUnmarshal respBodyBytes with
        | inl err =>
            (Some (clientError "failed to unmarshal proto response" err), None)
        | inr o => (None, Some o)
        end end end end
  end end end end.

(** The JSON variant parses the body as it reads it, and asks the
    context once more after that. *)
Definition doJSONRequest (ctx : callctx) (url : string) (in_ : In)
  : result Out :=
  match jsonpbMarshal in_ with
  | inl err => failed (clientError "failed to marshal json request" err)
  | inr reqBody =>
  match Err ctx 0 with
  | Some err => failed (clientError "aborted because context was done" err)
  | None =>
  match newRequest ctx url reqBody "application/json" with
  | inl err => failed (clientError "could not build request" err)
  | inr req =>
  match Do req with
  | inl err =>
      {| ret := Some (clientError "failed to do request" err); out := None;
         requests := [req]; closes := 0 |}
  | inr resp =>
      closing req resp
        match Err ctx 1 with
        | Some err =>
            (Some (clientError "aborted because context was done" err), None)
        | None =>
        if negb (encoder.StatusCode resp =? 200)%Z
        then (Some (errorFromResponse resp), None)
        else
        match match encoder.RespBody resp with
              | inl err => inl err
              | inr respBody => jsonpbUnmarshal respBody
              end with
        | inl err =>
            (Some (clientError "failed to unmarshal json response" err), None)
        | inr o =>
        match Err ctx 2 with
        | Some err =>
            (Some (clientError "aborted because context was done" err), Some o)
        | None => (None, Some o)
        end end end
  end end end end.

End Client.

End encoderClient.

(** ** Concrete libraries, codecs and a service, used as inputs *)

Module sample.

Definition jsonMarshal (tj : encoder.twerrJSON) : option string :=
  Some (encoder.Code tj +:+ " " +:+ encoder.Msg tj).

Definition jsonUnmarshal (s : string) : option encoder.twerrJSON :=
  if String.eqb s "bad_route no handler"
  then Some {| encoder.Code := "bad_route"; encoder.Msg := "no handler";
               encoder.Meta := ∅ |}
  else None.

Definition Quote (s : string) : string := s.
Definition StatusText (code : Z) : string := "status".
Definition IsValidErrorCode (code : twirp.ErrorCode) : bool := true.
Definition ToLower (s : string) : string := s.
Definition TrimSpace (s : string) : string := s.

Definition InternalErrorWith (e : error) : twirp.Error :=
  twirp.NewError twirp.Internal (Error e).

Definition ServerHTTPStatusFromErrorCode (code : twirp.ErrorCode) : Z :=
  if String.eqb code twirp.BadRoute then 404%Z else 500%Z.

Definition ReadAll (s : string) : error + string := inr s.

Definition writeFails (w : ResponseWriter) (p : string) : option (nat * error) :=
  None.

(** Messages that are their own wire form. *)
Definition unmarshal (s : string) : error + string := inr s.
Definition marshal (s : string) : error + string := inr s.

Definition service : encoderServer.Encoder string string string string :=
  {| encoderServer.CreateStream := λ _ rq,
       if String.eqb rq "panic" then encoderServer.SvcPanics "boom"
       else if String.eqb rq "refuse"
       then encoderServer.SvcReturns None
              (Some (inl (twirp.NewError "not_found" "no such device")))
       else encoderServer.SvcReturns (Some ("uid-of-" +:+ rq)) None;
     encoderServer.DeleteStream := λ _ rq,
       encoderServer.SvcReturns (Some EmptyString) None |}.

Definition server (h : option encoderServer.ServerHooks)
  : encoderServer.encoderServer string string string string :=
  encoderServer.NewEncoderServer service h.

Definition request (method path contentType body : string) : Request :=
  {| Method := method; Path := path;
     Header := [("Content-Type", contentType)]; Body := body |}.

Definition ServeHTTP :=
  encoderServer.ServeHTTP string string string string jsonMarshal Quote ToLower
    TrimSpace InternalErrorWith ServerHTTPStatusFromErrorCode ReadAll writeFails
    unmarshal marshal unmarshal marshal unmarshal marshal unmarshal marshal.

(** A connection that breaks after three bytes of a write, and the
    handler on it. *)
Definition breaking (w : ResponseWriter) (p : string) : option (nat * error) :=
  Some (3, errorString "broken pipe").

Definition ServeHTTP_breaking :=
  encoderServer.ServeHTTP string string string string jsonMarshal Quote ToLower
    TrimSpace InternalErrorWith ServerHTTPStatusFromErrorCode ReadAll breaking
    unmarshal marshal unmarshal marshal unmarshal marshal unmarshal marshal.

(** Hooks that observe every step and refuse nothing, all five
    installed. *)
Definition observing : encoderServer.ServerHooks :=
  {| encoderServer.RequestReceived := Some (λ ctx, (ctx, None));
     encoderServer.RequestRouted := Some (λ ctx, (ctx, None));
     encoderServer.ResponsePrepared := Some (λ ctx, ctx);
     encoderServer.ResponseSent := true;
     encoderServer.ErrorHook := Some (λ ctx _, ctx) |}.

(** Hooks that refuse every request. *)
Definition refusing : encoderServer.ServerHooks :=
  {| encoderServer.RequestReceived :=
       Some (λ ctx, (ctx, Some (inl (twirp.NewError twirp.Unavailable "closed"))));
     encoderServer.RequestRouted := None;
     encoderServer.ResponsePrepared := None;
     encoderServer.ResponseSent := true;
     encoderServer.ErrorHook := None |}.

(** A client side: a request builder, and HTTP clients answering every
    request with a fixed response. *)
Definition NewRequest (method url body : string)
  : error + encoderClient.HTTPRequest :=
  if String.eqb url EmptyString then inl (errorString "empty url")
  else inr {| encoderClient.rMethod := method; encoderClient.rURL := url;
              encoderClient.rHeader := []; encoderClient.rBody := body |}.

Definition answering (status : Z) (body : string)
  (req : encoderClient.HTTPRequest) : error + encoder.Response :=
  inr {| encoder.StatusCode := status; encoder.RespHeader := [];
         encoder.RespBody := inr body |}.

Definition background (custom : option (list (string * string)))
  : encoderClient.callctx :=
  {| encoderClient.customHeader := custom; encoderClient.Err := λ _, None |}.

Definition cancelled : encoderClient.callctx :=
  {| encoderClient.customHeader := None;
     encoderClient.Err := λ _, Some (errorString "context canceled") |}.

Definition doProtobufRequest
    (Do : encoderClient.HTTPRequest → error + encoder.Response)
    (Close : encoder.Response → option error) :=
  encoderClient.doProtobufRequest string string marshal unmarshal jsonUnmarshal
    Quote StatusText IsValidErrorCode InternalErrorWith NewRequest Do Close.

End sample.

(** ** Proof automation for runs of [Start] and [Stop] *)

Ltac unfold_server :=
  unfold run, Start, Stop, besideGoroutine, goListenAndServe, served, await,
    ask, exit, defer, orWrap, assertComponent, assertion_fault, invoke, note,
    panic, mbind, mret, M_bind, M_ret in *.

Ltac ask_world :=
  match goal with
  | H : context [match ?w ?tr ?c with _ => _ end] |- _ =>
      destruct (w tr c) as [[?|]|?|]; cbn in H
  | |- context [match ?w ?tr ?c with _ => _ end] =>
      destruct (w tr c) as [[?|]|?|]; cbn
  end.

(** Every path of a run, one goal per path. *)
Ltac paths s :=
  destruct s as [? ? [? ? [|]] [? ? [|]] ?];
  unfold_server; cbn in *; repeat ask_world; simplify_eq/=.

(** Which position of a concrete trace an event sits at. *)
Ltac locate i H :=
  repeat match type of H with
         | [] !! _ = Some _ => exfalso; clear -H; destruct i; discriminate H
         | (?e :: ?l) !! i = Some ?x =>
             destruct i as [|i];
             [ change (Some e = Some x) in H; simplify_eq
             | change (l !! i = Some x) in H ]
         end.

Ltac before j := exists j; split; [lia | reflexivity].

(** ** Startup *)

(** C4. In every run of [Start], when the HTTP listener is launched the
    MQTT client's and the encoder's [Start] have both returned nil
    before it: the lifecycle RPC surface is never opened before
    recovery has completed. *)
Theorem Start_listens_after_recovery w s out tr i addr r :
  run (Start s) w = (out, tr) →
  tr !! i = Some (Ev (ListenAndServe addr) r) →
  completes_before (CallStart Cmqtt) i tr ∧
  completes_before (CallStart Cenc) i tr.
Proof.
  intros Hrun Hi. paths s; locate i Hi; (split; [before 1 | before 3]).
Qed.

Lemma Start_listens_after_recovery_witness :
  run (Start a_server) quiet =
    (Exited 1,
     [Ev (CallStart Cdb) (Returns None); Ev (CallStart Cmqtt) (Returns None);
      Ev MigrateUp (Returns None); Ev (CallStart Cenc) (Returns None);
      Ev SignalNotify (Returns None);
      Ev (Log ["listenAddr"; ":8080"; "msg"; "starting server"]) (Returns None);
      Ev (ListenAndServe ":8080") Never;
      Ev RecvStopChan (Returns None);
      Ev (Log ["msg"; "stopping"]) (Returns None);
      Ev (CallStop Cenc) (Returns None); Ev (CallStop Cmqtt) (Returns None);
      Ev (CallStop Cdb) (Returns None);
      Ev (Shutdown {| ctx_timeout := Some 5000000000%Z |}) (Returns None);
      Ev CancelFn (Returns None);
      Ev ServeReturns (Returns (Some ErrServerClosed));
      Ev (Log ["err"; "http: Server closed"]) (Returns None);
      Ev (OsExit 1) Never]) ∧
  completes_before (CallStart Cmqtt) 6 (run (Start a_server) quiet).2 ∧
  completes_before (CallStart Cenc) 6 (run (Start a_server) quiet).2.
Proof.
  split; [reflexivity |].
  apply (Start_listens_after_recovery quiet a_server (Exited 1) _ 6 ":8080" Never);
    reflexivity.
Defined.

(** C1, as the specification words it, fails: the broker client is
    started at position 1 of a successful run, when no migration has
    run yet (the migration is at position 2); and when the migration
    fails the broker has been connected all the same. *)
Lemma Start_connects_broker_before_migrating :
  (run (Start a_server) quiet).2 !! 1 = Some (Ev (CallStart Cmqtt) (Returns None)) ∧
  ¬ completes_before MigrateUp 1 (run (Start a_server) quiet).2 ∧
  run (Start a_server) (failing_at is_MigrateUp) =
    (Err (Wrap boom "failed to migrate the database"),
     [Ev (CallStart Cdb) (Returns None); Ev (CallStart Cmqtt) (Returns None);
      Ev MigrateUp (Returns (Some boom))]).
Proof.
  split; [reflexivity |]. split; [| reflexivity].
  intros (j & Hj & Hev). destruct j as [|j]; [discriminate Hev | lia].
Qed.

(** C1, amended to the order of the code: the database is started, then
    the MQTT client, then the database is migrated, then the encoder is
    started, and only then is the HTTP listener launched.  In every run
    of [Start], when a step of this chain is invoked every earlier step
    has returned nil before it. *)
Theorem Start_dependency_chain w s out tr k l a b i r :
  run (Start s) w = (out, tr) →
  k < l →
  start_chain s !! k = Some a →
  start_chain s !! l = Some b →
  tr !! i = Some (Ev b r) →
  completes_before a i tr.
Proof.
  intros Hrun Hkl Ha Hb Hi.
  assert (Hl : l < 5) by (apply lookup_lt_Some in Hb; exact Hb).
  assert (∃ j, j < i ∧ tr !! j = Some (Ev a (Returns None))) as Hgoal; [| exact Hgoal].
  destruct s as [sv ? [? ? dc] [? ? mc] ?].
  unfold start_chain in Ha, Hb; cbn [srv] in Ha, Hb.
  assert (Hpre : ∀ j c, j < 5 → [CallStart Cdb; CallStart Cmqtt; MigrateUp;
              CallStart Cenc; ListenAndServe (Addr sv)] !! j = Some c →
            tr !! i = Some (Ev c r) →
            i = match j with 4 => 6 | _ => j end ∧
            ∀ j', j' < j → ∃ c', [CallStart Cdb; CallStart Cmqtt; MigrateUp;
              CallStart Cenc; ListenAndServe (Addr sv)] !! j' = Some c' ∧
              tr !! j' = Some (Ev c' (Returns None))).
  { clear k l a b Hkl Ha Hb Hi Hl. intros j c Hj Hc Hi.
    destruct j as [|[|[|[|[|j]]]]]; try lia; cbn in Hc; simplify_eq.
    all: destruct dc, mc; unfold_server; cbn in Hrun; repeat ask_world;
      simplify_eq/=; locate i Hi; (split; [reflexivity |]);
      intros j' Hj'; destruct j' as [|[|[|[|j']]]]; try lia; eauto. }
  destruct (Hpre l b Hl Hb Hi) as [-> Hall].
  destruct (Hall k Hkl) as (c' & Hc' & Htr).
  rewrite Ha in Hc'. simplify_eq.
  exists k. split; [| exact Htr].
  destruct l as [|[|[|[|[|l]]]]]; lia.
Qed.

Lemma Start_dependency_chain_witness :
  2 < 3 ∧
  start_chain a_server !! 2 = Some MigrateUp ∧
  start_chain a_server !! 3 = Some (CallStart Cenc) ∧
  (run (Start a_server) quiet).2 !! 3 = Some (Ev (CallStart Cenc) (Returns None)) ∧
  completes_before MigrateUp 3 (run (Start a_server) quiet).2.
Proof.
  split; [lia |]. repeat (split; [reflexivity |]).
  apply (Start_dependency_chain quiet a_server (Exited 1) _ 2 3 MigrateUp
           (CallStart Cenc) 3 (Returns None)); [reflexivity | lia | reflexivity ..].
Defined.

(** C7. When a startup step ([db] start, [mqtt] start, migration,
    encoder start) returns an error, [Start] returns that error wrapped
    in the message naming the step, as an ordinary error return, and
    the failing step is the last thing [Start] does. *)
Theorem Start_step_error_is_wrapped w s out tr i step msg e :
  run (Start s) w = (out, tr) →
  (step, msg) ∈ startup_steps →
  tr !! i = Some (Ev step (Returns (Some e))) →
  out = Err (Wrap e msg) ∧
  Error (Wrap e msg) = msg +:+ ": " +:+ Error e ∧
  drop (S i) tr = [].
Proof.
  intros Hrun Hin Hi. unfold startup_steps in Hin.
  rewrite !elem_of_cons, elem_of_nil in Hin.
  paths s; locate i Hi;
    destruct Hin as [?|[?|[?|[?|[]]]]]; simplify_eq; repeat split.
Qed.

Lemma Start_step_error_is_wrapped_witness :
  run (Start a_server) (failing_at is_MigrateUp) =
    (Err (Wrap boom "failed to migrate the database"),
     [Ev (CallStart Cdb) (Returns None); Ev (CallStart Cmqtt) (Returns None);
      Ev MigrateUp (Returns (Some boom))]) ∧
  (MigrateUp, "failed to migrate the database") ∈ startup_steps ∧
  Error (Wrap boom "failed to migrate the database") =
    "failed to migrate the database: boom".
Proof.
  split; [reflexivity |].
  assert (Hin : (MigrateUp, "failed to migrate the database") ∈ startup_steps).
  { unfold startup_steps. rewrite !elem_of_cons. right; right; left. reflexivity. }
  split; [exact Hin |].
  destruct (Start_step_error_is_wrapped (failing_at is_MigrateUp) a_server
              _ _ 2 MigrateUp "failed to migrate the database" boom
              eq_refl Hin eq_refl) as (_ & Hmsg & _).
  exact Hmsg.
Defined.

(** ** Shutdown *)

(** C8. [Stop] short-circuits: when a component's [Stop] returns an
    error, [Stop] returns that very error, and after the failing call
    only the deferred cancel function runs: no further component, and
    not the HTTP server, is stopped. *)
Theorem Stop_short_circuits w s out tr i c e :
  run (Stop s) w = (out, tr) →
  tr !! i = Some (Ev (CallStop c) (Returns (Some e))) →
  out = Err e ∧
  drop (S i) tr = [Ev CancelFn (Returns None)] ∧
  stops (drop (S i) tr) = [].
Proof.
  intros Hrun Hi. paths s; locate i Hi; repeat split.
Qed.

Lemma Stop_short_circuits_witness :
  run (Stop a_server) (failing_at (is_Stop_of Cenc)) =
    (Err boom,
     [Ev (Log ["msg"; "stopping"]) (Returns None);
      Ev (CallStop Cenc) (Returns (Some boom));
      Ev CancelFn (Returns None)]) ∧
  stops (drop 2 (run (Stop a_server) (failing_at (is_Stop_of Cenc))).2) = [].
Proof.
  split; [reflexivity |].
  destruct (Stop_short_circuits (failing_at (is_Stop_of Cenc)) a_server
              _ _ 1 Cenc boom eq_refl eq_refl) as (_ & _ & Hstops).
  exact Hstops.
Defined.

(** [Start] starts the components in the order database, MQTT client,
    encoder, HTTP server. *)
Lemma Start_starts_in_order w s out tr :
  run (Start s) w = (out, tr) →
  starts tr `prefix_of` [Cdb; Cmqtt; Cenc; Csrv].
Proof.
  intros Hrun. paths s; cbn;
    first [ by exists [Cdb; Cmqtt; Cenc; Csrv] | by exists [Cmqtt; Cenc; Csrv]
          | by exists [Cenc; Csrv] | by exists [Csrv] | by exists [] ].
Qed.

(** C3, as the specification words it, fails.  In a run where
    everything succeeds the HTTP server, started last, is also stopped
    last, so the stop order is not the reverse of the start order; and
    when the encoder's [Stop] never returns, [Stop] never returns
    either and the HTTP server's [Shutdown], the only call given the
    deadline, is not reached. *)
Lemma Stop_is_not_reverse_and_can_block :
  starts (run (Start a_server) quiet).2 = [Cdb; Cmqtt; Cenc; Csrv] ∧
  stops (run (Start a_server) quiet).2 = [Cenc; Cmqtt; Cdb; Csrv] ∧
  stops (run (Start a_server) quiet).2 ≠ rev (starts (run (Start a_server) quiet).2) ∧
  run (Stop a_server) (never_at (is_Stop_of Cenc)) =
    (Blocked,
     [Ev (Log ["msg"; "stopping"]) (Returns None); Ev (CallStop Cenc) Never]).
Proof.
  split; [reflexivity |]. split; [reflexivity |]. split; [| reflexivity].
  cbn. discriminate.
Qed.

(** C3, amended.  [Stop] stops the encoder, then the MQTT client, then
    the database (the reverse of the order in which [Start] starts
    these three) and shuts the HTTP server down after them.  The
    deadline is a timeout of five seconds handed to the HTTP server's
    [Shutdown] alone; [Shutdown] is reached only once the three
    components' [Stop] have returned nil, and [Stop] then ends as
    [Shutdown] does. *)
Theorem Stop_order_and_deadline w s out tr :
  run (Stop s) w = (out, tr) →
  stops tr `prefix_of` rev [Cdb; Cmqtt; Cenc] ++ [Csrv] ∧
  ∀ i ctx r, tr !! i = Some (Ev (Shutdown ctx) r) →
    ctx_timeout ctx = Some 5000000000%Z ∧
    completes_before (CallStop Cenc) i tr ∧
    completes_before (CallStop Cmqtt) i tr ∧
    completes_before (CallStop Cdb) i tr ∧
    out = match r with
          | Returns None => Ok tt
          | Returns (Some e) => Err e
          | Panics v => Panicked v
          | Never => Blocked
          end.
Proof.
  intros Hrun. split.
  - paths s; cbn;
      first [ by exists [Cenc; Cmqtt; Cdb; Csrv] | by exists [Cmqtt; Cdb; Csrv]
            | by exists [Cdb; Csrv] | by exists [Csrv] | by exists [] ].
  - intros i ctx r Hi. paths s; locate i Hi;
      (split; [reflexivity |]); (split; [before 1 |]);
      (split; [before 2 |]); (split; [before 3 | reflexivity]).
Qed.

Lemma Stop_order_and_deadline_witness :
  run (Stop a_server) quiet =
    (Ok tt,
     [Ev (Log ["msg"; "stopping"]) (Returns None);
      Ev (CallStop Cenc) (Returns None); Ev (CallStop Cmqtt) (Returns None);
      Ev (CallStop Cdb) (Returns None);
      Ev (Shutdown (WithTimeout Background (5 * Second)%Z)) (Returns None);
      Ev CancelFn (Returns None)]) ∧
  stops (run (Stop a_server) quiet).2 `prefix_of` [Cenc; Cmqtt; Cdb; Csrv] ∧
  completes_before (CallStop Cdb) 4 (run (Stop a_server) quiet).2.
Proof.
  split; [reflexivity |].
  destruct (Stop_order_and_deadline quiet a_server _ _ eq_refl) as [Hord Hdl].
  split; [exact Hord |].
  destruct (Hdl 4 _ _ eq_refl) as (_ & _ & _ & Hdb & _). exact Hdb.
Defined.

(** C5, as the specification words it, fails: when the MQTT client's
    [Stop] never returns, nothing aborts it: [Stop] is blocked for
    good, whatever the deadline, and no call of the run was handed a
    context. *)
Lemma Stop_does_not_abort_outstanding_call :
  run (Stop a_server) (never_at (is_Stop_of Cmqtt)) =
    (Blocked,
     [Ev (Log ["msg"; "stopping"]) (Returns None);
      Ev (CallStop Cenc) (Returns None); Ev (CallStop Cmqtt) Never]) ∧
  omap (λ e, ctx_of (ev_call e))
       (run (Stop a_server) (never_at (is_Stop_of Cmqtt))).2 = [].
Proof. split; reflexivity. Qed.

(** C5, amended.  The deadline context of [Stop] is handed to the HTTP
    server's [Shutdown] and to no other call: the one call of a run
    that carries a context is [Shutdown], made after the three
    components have been stopped.  A component's [Stop] that never
    returns leaves [Stop] blocked, with nothing run after it. *)
Theorem Stop_deadline_reaches_only_Shutdown w s out tr :
  run (Stop s) w = (out, tr) →
  (∀ i e ctx, tr !! i = Some e → ctx_of (ev_call e) = Some ctx →
     ev_call e = Shutdown (WithTimeout Background (5 * Second)%Z) ∧
     stops (take i tr) = [Cenc; Cmqtt; Cdb]) ∧
  (∀ i c, tr !! i = Some (Ev (CallStop c) Never) →
     out = Blocked ∧ drop (S i) tr = []).
Proof.
  intros Hrun. split.
  - intros i [c r] ctx Hi Hctx. destruct c; try discriminate Hctx.
    paths s; locate i Hi; split; reflexivity.
  - intros i c Hi. paths s; locate i Hi; split; reflexivity.
Qed.

Lemma Stop_deadline_reaches_only_Shutdown_witness :
  (run (Stop a_server) quiet).2 !! 4 =
    Some (Ev (Shutdown (WithTimeout Background (5 * Second)%Z)) (Returns None)) ∧
  stops (take 4 (run (Stop a_server) quiet).2) = [Cenc; Cmqtt; Cdb] ∧
  (run (Stop a_server) (never_at (is_Stop_of Cdb))).2 !! 3 =
    Some (Ev (CallStop Cdb) Never) ∧
  (run (Stop a_server) (never_at (is_Stop_of Cdb))).1 = Blocked.
Proof.
  split; [reflexivity |].
  destruct (Stop_deadline_reaches_only_Shutdown quiet a_server _ _ eq_refl)
    as [Hctx _].
  destruct (Hctx 4 _ (WithTimeout Background (5 * Second)%Z) eq_refl eq_refl)
    as [_ Hstops].
  split; [exact Hstops |]. split; [reflexivity |].
  destruct (Stop_deadline_reaches_only_Shutdown (never_at (is_Stop_of Cdb))
              a_server _ _ eq_refl) as [_ Hnever].
  destruct (Hnever 3 Cdb eq_refl) as [Hout _]. exact Hout.
Defined.

(** ** Type assertions *)

(** C6, as the specification words it, fails: [Start] and [Stop] do
    probe their handles at run time.  With a database handle that does
    not implement [system.Component], [Start] panics on the assertion
    before any call is made; with such an MQTT handle, [Stop] panics
    after stopping the encoder. *)
Lemma Start_panics_on_failed_assertion :
  run (Start (a_server_without false true)) quiet =
    (Panicked "interface conversion: postgres.DB is not system.Component", []) ∧
  run (Stop (a_server_without true false)) quiet =
    (Panicked "interface conversion: mqtt.Client is not system.Component",
     [Ev (Log ["msg"; "stopping"]) (Returns None);
      Ev (CallStop Cenc) (Returns None); Ev CancelFn (Returns None)]).
Proof. split; reflexivity. Qed.

(** C6, amended.  The database's and the MQTT client's lifecycle
    methods are reached through an assertion to [system.Component]:
    [Start] panics, before calling anything, when the database handle
    does not implement it, and right after the database's [Start]
    returned nil when the MQTT handle does not.  The encoder is called
    on its concrete type: [Stop] stops it whatever the handles
    implement.  When both handles implement [system.Component], a
    panic of [Start] or [Stop] is a panic of one of the calls made. *)
Theorem lifecycle_assertion_faults w s :
  (db_Component (db s) = false →
     run (Start s) w = (Panicked (assertion_fault "postgres.DB"), [])) ∧
  (db_Component (db s) = true → mc_Component (mqtt s) = false →
     w [] (CallStart Cdb) = Returns None →
     run (Start s) w =
       (Panicked (assertion_fault "mqtt.Client"),
        [Ev (CallStart Cdb) (Returns None)])) ∧
  (run (Stop s) w).2 !! 1 =
     Some (Ev (CallStop Cenc)
             (w [Ev (Log ["msg"; "stopping"]) (Returns None)] (CallStop Cenc))) ∧
  (db_Component (db s) = true → mc_Component (mqtt s) = true →
     ∀ out tr v,
       run (Start s) w = (out, tr) ∨ run (Stop s) w = (out, tr) →
       out = Panicked v → ∃ c, Ev c (Panics v) ∈ tr).
Proof.
  split; [| split; [| split]].
  - intros Hdb. destruct s as [? ? [? ? ?] ? ?]. cbn in Hdb. subst.
    reflexivity.
  - intros Hdb Hmq Hw. destruct s as [? ? [? ? ?] [? ? ?] ?]. cbn in Hdb, Hmq.
    subst. unfold_server. cbn. rewrite Hw. reflexivity.
  - destruct s as [? ? [? ? [|]] [? ? [|]] ?]; unfold_server; cbn;
      repeat ask_world; reflexivity.
  - intros Hdb Hmq out tr v [Hrun | Hrun] ->.
    + destruct s as [? ? [? ? ?] [? ? ?] ?]. cbn in Hdb, Hmq. subst.
      unfold_server; cbn in *; repeat ask_world; simplify_eq/=;
        eexists; rewrite !elem_of_cons; eauto 20.
    + destruct s as [? ? [? ? ?] [? ? ?] ?]. cbn in Hdb, Hmq. subst.
      unfold_server; cbn in *; repeat ask_world; simplify_eq/=;
        eexists; rewrite !elem_of_cons; eauto 20.
Qed.

Lemma lifecycle_assertion_faults_witness :
  run (Start (a_server_without false true)) quiet =
    (Panicked (assertion_fault "postgres.DB"), []) ∧
  run (Start (a_server_without true false)) quiet =
    (Panicked (assertion_fault "mqtt.Client"),
     [Ev (CallStart Cdb) (Returns None)]) ∧
  ∃ c, Ev c (Panics "lost connection") ∈
         (run (Stop a_server)
            (λ _ c, if is_Stop_of Cdb c then Panics "lost connection"
                    else Returns None)).2.
Proof.
  split.
  { destruct (lifecycle_assertion_faults quiet (a_server_without false true))
      as (H & _). exact (H eq_refl). }
  split.
  { destruct (lifecycle_assertion_faults quiet (a_server_without true false))
      as (_ & H & _). exact (H eq_refl eq_refl eq_refl). }
  destruct (lifecycle_assertion_faults
              (λ _ c, if is_Stop_of Cdb c then Panics "lost connection"
                      else Returns None) a_server) as (_ & _ & _ & H).
  exact (H eq_refl eq_refl _ _ "lost connection" (or_intror eq_refl) eq_refl).
Defined.

(** ** Construction and the pulse endpoint *)

(** C9. Whatever arguments [NewServer] is given, the datastore client
    held by the server's MQTT client, which is also the encoder's, is
    the one built for the fixed address. *)
Theorem NewServer_datastore_address addr connStr encryptionPassword lg :
  ds_addr (mc_ds (mqtt (NewServer addr connStr encryptionPassword lg))) =
    "http://192.168.1.116:8081" ∧
  ds_addr (mc_ds (enc_mqtt (enc (NewServer addr connStr encryptionPassword lg)))) =
    "http://192.168.1.116:8081".
Proof. split; reflexivity. Qed.

(** C10. [PulseHandler] writes "ok" to the response, whatever the
    request is. *)
Theorem PulseHandler_writes_ok w r :
  rw_body (PulseHandler w r) = rw_body w +:+ "ok" ∧
  PulseHandler w r = Write w "ok" ∧
  ∀ r', PulseHandler w r' = PulseHandler w r.
Proof. repeat split. Qed.

(** ** Lifecycle: the compensating delete *)




(** ** Further properties of startup and shutdown *)



(** When [ListenAndServe] returns an error before a signal is received,
    the goroutine logs the error and exits the process with status 1:
    the main goroutine is still waiting, [Stop] is not run and no
    component is stopped. *)
Theorem Start_listen_failure_exits w s out tr i addr e :
  run (Start s) w = (out, tr) →
  tr !! i = Some (Ev (ListenAndServe addr) (Returns (Some e))) →
  out = Exited 1 ∧ stops tr = [] ∧
  drop (S i) tr = [Ev (Log ["err"; Error e]) (Returns None);
                   Ev (OsExit 1) Never].
Proof. intros Hrun Hi. paths s; locate i Hi; repeat split. Qed.

Lemma Start_listen_failure_exits_witness :
  run (Start a_server) (failing_at is_ListenAndServe) =
    (Exited 1,
     [Ev (CallStart Cdb) (Returns None); Ev (CallStart Cmqtt) (Returns None);
      Ev MigrateUp (Returns None); Ev (CallStart Cenc) (Returns None);
      Ev SignalNotify (Returns None);
      Ev (Log ["listenAddr"; ":8080"; "msg"; "starting server"]) (Returns None);
      Ev (ListenAndServe ":8080") (Returns (Some boom));
      Ev (Log ["err"; "boom"]) (Returns None);
      Ev (OsExit 1) Never]) ∧
  stops (run (Start a_server) (failing_at is_ListenAndServe)).2 = [].
Proof.
  split; [reflexivity |].
  destruct (Start_listen_failure_exits (failing_at is_ListenAndServe) a_server
              _ _ 6 ":8080" boom eq_refl eq_refl) as (_ & Hstops & _).
  exact Hstops.
Defined.

(** [Start] has no clean-up of its own: in a run that does not get as
    far as launching the HTTP listener nothing is stopped, so the
    components started before a failing step are left running. *)
Theorem Start_failure_stops_nothing w s out tr :
  run (Start s) w = (out, tr) →
  Csrv ∉ starts tr →
  stops tr = [].
Proof.
  intros Hrun Hno.
  paths s; try reflexivity; exfalso; apply Hno; cbn;
    rewrite !elem_of_cons; auto 10.
Qed.

Lemma Start_failure_stops_nothing_witness :
  starts (run (Start a_server) (failing_at (is_Start_of Cenc))).2 =
    [Cdb; Cmqtt; Cenc] ∧
  stops (run (Start a_server) (failing_at (is_Start_of Cenc))).2 = [].
Proof.
  split; [reflexivity |].
  apply (Start_failure_stops_nothing (failing_at (is_Start_of Cenc)) a_server
           (Err (Wrap boom "failed to start encoder")) _ eq_refl).
  cbn. rewrite !elem_of_cons, elem_of_nil. intros [H|[H|[H|[]]]]; discriminate H.
Defined.

(** The deferred cancel function of [Stop] runs exactly when [Stop]
    returns or panics, as the last thing it does, and once; a [Stop]
    that is blocked has not run it. *)
Theorem Stop_cancels_when_it_ends w s out tr :
  run (Stop s) w = (out, tr) →
  (out ≠ Blocked →
     last tr = Some (Ev CancelFn (Returns None)) ∧
     length (filter (λ e, is_CancelFn (ev_call e)) tr) = 1) ∧
  (out = Blocked → filter (λ e, is_CancelFn (ev_call e)) tr = []).
Proof.
  intros Hrun. paths s; (split; [intros Hne | intros Heq]);
    try discriminate Heq; try (exfalso; apply Hne; reflexivity);
    try (split; reflexivity); reflexivity.
Qed.

Lemma Stop_cancels_when_it_ends_witness :
  last (run (Stop a_server) (failing_at (is_Stop_of Cmqtt))).2 =
    Some (Ev CancelFn (Returns None)) ∧
  filter (λ e, is_CancelFn (ev_call e))
    (run (Stop a_server) (never_at (is_Stop_of Cmqtt))).2 = [].
Proof.
  destruct (Stop_cancels_when_it_ends (failing_at (is_Stop_of Cmqtt)) a_server
              _ _ eq_refl) as [Hend _].
  destruct (Stop_cancels_when_it_ends (never_at (is_Stop_of Cmqtt)) a_server
              _ _ eq_refl) as [_ Hblocked].
  split; [| exact (Hblocked eq_refl)].
  destruct Hend as [Hlast _]; [discriminate | exact Hlast].
Defined.

(** ** Errors from intermediaries *)

Lemma intermediary_Msg status msg b :
  twirp.Msg (encoder.twirpErrorFromIntermediary status msg b) = msg.
Proof.
  unfold encoder.twirpErrorFromIntermediary.
  destruct (encoder.isHTTPRedirect status); reflexivity.
Qed.

Lemma intermediary_status_code status msg b :
  twirp.MetaMap (encoder.twirpErrorFromIntermediary status msg b) !! "status_code"
    = Some (encoder.Itoa status).
Proof.
  unfold encoder.twirpErrorFromIntermediary.
  destruct (encoder.isHTTPRedirect status); cbn; by simplify_map_eq.
Qed.

Lemma intermediary_location status msg b :
  twirp.MetaMap (encoder.twirpErrorFromIntermediary status msg b) !! "location"
    = if encoder.isHTTPRedirect status then Some b else None.
Proof.
  unfold encoder.twirpErrorFromIntermediary.
  destruct (encoder.isHTTPRedirect status); cbn; by simplify_map_eq.
Qed.

Lemma intermediary_body status msg b :
  twirp.MetaMap (encoder.twirpErrorFromIntermediary status msg b) !! "body"
    = if encoder.isHTTPRedirect status then None else Some b.
Proof.
  unfold encoder.twirpErrorFromIntermediary.
  destruct (encoder.isHTTPRedirect status); cbn; by simplify_map_eq.
Qed.

(** An error built from an intermediary's response keeps the message
    it is given and always carries the marker
    [http_error_from_intermediary] and the decimal status code; the
    third argument goes under [location] for a redirect and under
    [body] otherwise, never under both. *)
Theorem twirpErrorFromIntermediary_meta status msg bodyOrLocation :
  let twerr := encoder.twirpErrorFromIntermediary status msg bodyOrLocation in
  twirp.Msg twerr = msg ∧
  twirp.Meta twerr "http_error_from_intermediary" = "true" ∧
  twirp.Meta twerr "status_code" = encoder.Itoa status ∧
  twirp.MetaMap twerr !! "location" =
    (if encoder.isHTTPRedirect status then Some bodyOrLocation else None) ∧
  twirp.MetaMap twerr !! "body" =
    (if encoder.isHTTPRedirect status then None else Some bodyOrLocation) ∧
  size (twirp.MetaMap twerr) = 3.
Proof.
  unfold encoder.twirpErrorFromIntermediary, twirp.Meta.
  destruct (encoder.isHTTPRedirect status); cbn;
    repeat split; try (by simplify_map_eq);
    rewrite !map_size_insert_None by (by simplify_map_eq);
    rewrite map_size_empty; reflexivity.
Qed.

(** The twirp code chosen for an intermediary's status: every 3xx and
    400 give [internal]; 401, 403 and 404 give [unauthenticated],
    [permission_denied] and [bad_route]; exactly 429, 502, 503 and 504
    give [unavailable]; every other status gives [unknown]. *)
Theorem twirpErrorFromIntermediary_code status msg bodyOrLocation :
  let code := twirp.Code
                (encoder.twirpErrorFromIntermediary status msg bodyOrLocation) in
  (code = twirp.Internal ↔ (300 ≤ status ≤ 399 ∨ status = 400)%Z) ∧
  (code = twirp.Unauthenticated ↔ status = 401%Z) ∧
  (code = twirp.PermissionDenied ↔ status = 403%Z) ∧
  (code = twirp.BadRoute ↔ status = 404%Z) ∧
  (code = twirp.Unavailable ↔
     (status = 429 ∨ status = 502 ∨ status = 503 ∨ status = 504)%Z) ∧
  (code = twirp.Unknown ↔
     (¬ (300 ≤ status ≤ 399) ∧
      status ∉ [400; 401; 403; 404; 429; 502; 503; 504])%Z).
Proof.
  unfold encoder.twirpErrorFromIntermediary, encoder.isHTTPRedirect.
  rewrite !elem_of_cons, elem_of_nil.
  unfold twirp.Internal, twirp.Unauthenticated, twirp.PermissionDenied,
    twirp.BadRoute, twirp.Unavailable, twirp.Unknown.
  destruct (Z.leb_spec 300 status), (Z.leb_spec status 399); cbn [andb];
    repeat match goal with
           | |- context [(?a =? ?b)%Z] => destruct (Z.eqb_spec a b)
           end;
    cbn; repeat split; intros; try discriminate; try lia; auto.
Qed.

(** The error built from an intermediary's response determines the
    status, the message and the body or location it was built from. *)
Theorem twirpErrorFromIntermediary_inj s1 m1 b1 s2 m2 b2 :
  encoder.twirpErrorFromIntermediary s1 m1 b1 =
    encoder.twirpErrorFromIntermediary s2 m2 b2 →
  s1 = s2 ∧ m1 = m2 ∧ b1 = b2.
Proof.
  intros Heq.
  assert (Hm : m1 = m2).
  { apply (f_equal twirp.Msg) in Heq. rewrite !intermediary_Msg in Heq. exact Heq. }
  assert (Hs : s1 = s2).
  { apply (f_equal (λ e, twirp.MetaMap e !! "status_code")) in Heq.
    rewrite !intermediary_status_code in Heq.
    injection Heq as Heq. exact (inj (pretty (A := Z)) _ _ Heq). }
  subst s2. split; [reflexivity |]. split; [exact Hm |].
  pose proof (f_equal (λ e, twirp.MetaMap e !! "location") Heq) as Hl.
  pose proof (f_equal (λ e, twirp.MetaMap e !! "body") Heq) as Hb.
  cbn beta in Hl, Hb. rewrite !intermediary_location in Hl.
  rewrite !intermediary_body in Hb.
  destruct (encoder.isHTTPRedirect s1); congruence.
Qed.

Lemma twirpErrorFromIntermediary_inj_witness :
  (503 = 503 ∧ "bad gateway" = "bad gateway" ∧ "<html>" = "<html>")%Z.
Proof.
  exact (twirpErrorFromIntermediary_inj 503 "bad gateway" "<html>"
           503 "bad gateway" "<html>" eq_refl).
Defined.

(** ** Serializing errors *)

Lemma string_take_length n s :
  String.length (encoder.string_take n s) = n `min` String.length s.
Proof.
  revert s. induction n as [|n IH]; intros [|c s]; cbn; try reflexivity.
  rewrite IH. reflexivity.
Qed.

Lemma string_take_prefix n s : ∃ rest, s = encoder.string_take n s +:+ rest.
Proof.
  revert s. induction n as [|n IH]; intros s.
  - exists s. destruct s; reflexivity.
  - destruct s as [|c s]; [exists EmptyString; reflexivity |].
    destruct (IH s) as [rest Hrest]. exists rest.
    change (String c s = String c (encoder.string_take n s +:+ rest)).
    f_equal. exact Hrest.
Qed.

(** The record serialized for an error has the error's code and
    metadata; its message is a prefix of the error's message of at most
    1e6 bytes, and the message itself when that is no longer. *)
Theorem errorJSON_message_bounded twerr :
  let tj := encoder.errorJSON twerr in
  encoder.Code tj = twirp.Code twerr ∧
  encoder.Meta tj = twirp.MetaMap twerr ∧
  (Z.of_nat (String.length (encoder.Msg tj)) ≤ 1000000)%Z ∧
  (∃ rest, twirp.Msg twerr = encoder.Msg tj +:+ rest) ∧
  ((Z.of_nat (String.length (twirp.Msg twerr)) ≤ 1000000)%Z →
     encoder.Msg tj = twirp.Msg twerr).
Proof.
  unfold encoder.errorJSON. cbn.
  split; [reflexivity |]. split; [reflexivity |].
  destruct (Z.ltb_spec 1000000 (Z.of_nat (String.length (twirp.Msg twerr))))
    as [Hlong | Hshort].
  - split; [rewrite string_take_length; lia |].
    split; [apply string_take_prefix | intros Hle; lia].
  - split; [exact Hshort |]. split; [| reflexivity].
    exists EmptyString. clear. induction (twirp.Msg twerr) as [|c s IH];
      [reflexivity |].
    change (String c s = String c (s +:+ EmptyString)). f_equal. exact IH.
Qed.

Lemma errorJSON_message_bounded_witness :
  encoder.Msg (encoder.errorJSON (twirp.NewError twirp.BadRoute "no handler")) =
    "no handler".
Proof.
  destruct (errorJSON_message_bounded (twirp.NewError twirp.BadRoute "no handler"))
    as (_ & _ & _ & _ & Hsame).
  apply Hsame. cbn. lia.
Defined.

(** ** Errors read back by the client *)

(** Copying the metadata of a record into a fresh error, one key at a
    time and in whatever order, yields an error with exactly that
    metadata. *)
Lemma fold_WithMeta code msg (meta : gmap string string) :
  map_fold (λ k v twerr, twirp.WithMeta twerr k v) (twirp.NewError code msg) meta
    = {| twirp.Code := code; twirp.Msg := msg; twirp.MetaMap := meta |}.
Proof.
  induction meta as [|k v meta Hfresh IH] using map_ind.
  - rewrite map_fold_empty. reflexivity.
  - rewrite map_fold_insert_L; [| | exact Hfresh].
    + rewrite IH. reflexivity.
    + intros j1 j2 z1 z2 y Hne _ _. unfold twirp.WithMeta. cbn.
      f_equal. apply insert_insert_ne. congruence.
Qed.

Section ErrorsOverTheWire.

Variable jsonMarshal : encoder.twerrJSON → option string.
Variable jsonUnmarshal : string → option encoder.twerrJSON.
Variable Quote : string → string.
Variable StatusText : Z → string.
Variable IsValidErrorCode : twirp.ErrorCode → bool.
Variable InternalErrorWith : error → twirp.Error.

Local Abbreviation errorFromResponse :=
  (encoder.errorFromResponse jsonUnmarshal Quote StatusText IsValidErrorCode
     InternalErrorWith).

(** For a redirect (3xx) the client never looks at the body: the error
    is [internal], carries the [Location] header under [location] and
    no [body], whatever the response body is or fails to be. *)
Theorem errorFromResponse_redirect resp body :
  encoder.isHTTPRedirect (encoder.StatusCode resp) = true →
  twirp.Code (errorFromResponse resp) = twirp.Internal ∧
  twirp.MetaMap (errorFromResponse resp) !! "location" =
    Some (encoder.header_get "Location" (encoder.RespHeader resp)) ∧
  twirp.MetaMap (errorFromResponse resp) !! "body" = None ∧
  errorFromResponse {| encoder.StatusCode := encoder.StatusCode resp;
                       encoder.RespHeader := encoder.RespHeader resp;
                       encoder.RespBody := body |} = errorFromResponse resp.
Proof.
  intros Hredirect. unfold encoder.errorFromResponse. cbn. rewrite Hredirect.
  split.
  { unfold encoder.twirpErrorFromIntermediary. rewrite Hredirect. reflexivity. }
  rewrite intermediary_location, intermediary_body, Hredirect.
  repeat split.
Qed.

(** A body that is the JSON of an error with a valid code is turned
    back into that error: its code, its message and exactly its
    metadata. *)
Theorem errorFromResponse_decodes resp body tj :
  encoder.isHTTPRedirect (encoder.StatusCode resp) = false →
  encoder.RespBody resp = inr body →
  jsonUnmarshal body = Some tj →
  IsValidErrorCode (encoder.Code tj) = true →
  errorFromResponse resp =
    {| twirp.Code := encoder.Code tj; twirp.Msg := encoder.Msg tj;
       twirp.MetaMap := encoder.Meta tj |}.
Proof.
  intros Hstatus Hbody Hjson Hvalid. unfold encoder.errorFromResponse.
  rewrite Hstatus, Hbody, Hjson, Hvalid. cbn. apply fold_WithMeta.
Qed.

(** Round trip: an error with a valid code and a message of at most
    1e6 bytes, serialized by the server and read back by the client
    from a non-redirect response, is the same error, provided the JSON
    codec reads back what it wrote. *)
Theorem errorFromResponse_marshalErrorToJSON twerr status hdr :
  encoder.isHTTPRedirect status = false →
  (Z.of_nat (String.length (twirp.Msg twerr)) ≤ 1000000)%Z →
  IsValidErrorCode (twirp.Code twerr) = true →
  jsonUnmarshal (encoder.marshalErrorToJSON jsonMarshal twerr) =
    Some (encoder.errorJSON twerr) →
  errorFromResponse
    {| encoder.StatusCode := status; encoder.RespHeader := hdr;
       encoder.RespBody := inr (encoder.marshalErrorToJSON jsonMarshal twerr) |}
    = twerr.
Proof.
  intros Hstatus Hlen Hvalid Hcodec. unfold encoder.errorFromResponse. cbn.
  rewrite Hstatus, Hcodec. cbn. rewrite Hvalid. cbn. rewrite fold_WithMeta.
  unfold encoder.errorJSON. cbn.
  destruct (Z.ltb_spec 1000000 (Z.of_nat (String.length (twirp.Msg twerr))));
    [lia |].
  destruct twerr; reflexivity.
Qed.

(** A body that is not JSON comes from an intermediary: the error keeps
    the raw body under [body] and the status under [status_code]. *)
Theorem errorFromResponse_intermediary resp body :
  encoder.isHTTPRedirect (encoder.StatusCode resp) = false →
  encoder.RespBody resp = inr body →
  jsonUnmarshal body = None →
  twirp.MetaMap (errorFromResponse resp) !! "body" = Some body ∧
  twirp.MetaMap (errorFromResponse resp) !! "status_code" =
    Some (encoder.Itoa (encoder.StatusCode resp)) ∧
  twirp.MetaMap (errorFromResponse resp) !! "http_error_from_intermediary" =
    Some "true".
Proof.
  intros Hstatus Hbody Hjson. unfold encoder.errorFromResponse.
  rewrite Hstatus, Hbody, Hjson. cbn.
  rewrite intermediary_body, intermediary_status_code, Hstatus.
  repeat split. unfold encoder.twirpErrorFromIntermediary. rewrite Hstatus.
  cbn. by simplify_map_eq.
Qed.

End ErrorsOverTheWire.

(** ** The server handler *)

Section HandlerProperties.

Import encoderServer.

Variables CreateStreamRequest CreateStreamResponse : Type.
Variables DeleteStreamRequest DeleteStreamResponse : Type.
Variable jsonMarshal : encoder.twerrJSON → option string.
Variable Quote : string → string.
Variable ToLower : string → string.
Variable TrimSpace : string → string.
Variable InternalErrorWith : error → twirp.Error.
Variable ServerHTTPStatusFromErrorCode : twirp.ErrorCode → Z.
Variable ReadAll : string → error + string.
Variable writeFails : ResponseWriter → string → option (nat * error).
Variable jsonUnmarshalCreate : string → error + CreateStreamRequest.
Variable jsonMarshalCreate : CreateStreamResponse → error + string.
Variable protoUnmarshalCreate : string → error + CreateStreamRequest.
Variable protoMarshalCreate : CreateStreamResponse → error + string.
Variable jsonUnmarshalDelete : string → error + DeleteStreamRequest.
Variable jsonMarshalDelete : DeleteStreamResponse → error + string.
Variable protoUnmarshalDelete : string → error + DeleteStreamRequest.
Variable protoMarshalDelete : DeleteStreamResponse → error + string.

Local Abbreviation server :=
  (encoderServer CreateStreamRequest CreateStreamResponse
     DeleteStreamRequest DeleteStreamResponse).
Local Abbreviation writeError' :=
  (writeError jsonMarshal InternalErrorWith ServerHTTPStatusFromErrorCode
     writeFails).
Local Abbreviation serveMethod' :=
  (@serveMethod CreateStreamRequest CreateStreamResponse DeleteStreamRequest
     DeleteStreamResponse jsonMarshal InternalErrorWith
     ServerHTTPStatusFromErrorCode writeFails).
Local Abbreviation serveCreateStream' :=
  (serveCreateStream CreateStreamRequest CreateStreamResponse
     DeleteStreamRequest DeleteStreamResponse jsonMarshal Quote ToLower
     TrimSpace InternalErrorWith ServerHTTPStatusFromErrorCode ReadAll
     writeFails jsonUnmarshalCreate jsonMarshalCreate protoUnmarshalCreate
     protoMarshalCreate).
Local Abbreviation serveDeleteStream' :=
  (serveDeleteStream CreateStreamRequest CreateStreamResponse
     DeleteStreamRequest DeleteStreamResponse jsonMarshal Quote ToLower
     TrimSpace InternalErrorWith ServerHTTPStatusFromErrorCode ReadAll
     writeFails jsonUnmarshalDelete jsonMarshalDelete protoUnmarshalDelete
     protoMarshalDelete).
Local Abbreviation serveCreateStreamJSON' :=
  (serveCreateStreamJSON CreateStreamRequest CreateStreamResponse
     DeleteStreamRequest DeleteStreamResponse jsonMarshal InternalErrorWith
     ServerHTTPStatusFromErrorCode writeFails jsonUnmarshalCreate
     jsonMarshalCreate).
Local Abbreviation mediaType' := (mediaType ToLower TrimSpace).
Local Abbreviation ServeHTTP' :=
  (ServeHTTP CreateStreamRequest CreateStreamResponse DeleteStreamRequest
     DeleteStreamResponse jsonMarshal Quote ToLower TrimSpace InternalErrorWith
     ServerHTTPStatusFromErrorCode ReadAll writeFails
     jsonUnmarshalCreate jsonMarshalCreate protoUnmarshalCreate
     protoMarshalCreate jsonUnmarshalDelete jsonMarshalDelete
     protoUnmarshalDelete protoMarshalDelete).

Lemma sentCount_logged x e :
  sentCount (logged x e) = sentCount x + (if is_sent e then 1 else 0).
Proof.
  unfold sentCount, logged. cbn. rewrite List.filter_app, length_app. cbn.
  destruct (is_sent e); reflexivity.
Qed.

Lemma errorCount_logged x e :
  errorCount (logged x e) = errorCount x + (if is_error e then 1 else 0).
Proof.
  unfold errorCount, logged. cbn. rewrite List.filter_app, length_app. cbn.
  destruct (is_error e); reflexivity.
Qed.

Lemma hooked_refl x : hooked x x.
Proof. repeat split. Qed.

Lemma hooked_logged x e :
  is_sent e = false → is_error e = false → hooked x (logged x e).
Proof.
  intros Hs He. unfold hooked. rewrite sentCount_logged, errorCount_logged, Hs, He.
  cbn. repeat split; lia.
Qed.

Lemma callRequestReceived_hooked ctx h x :
  hooked x (callRequestReceived ctx h x).2.
Proof.
  unfold callRequestReceived. destruct h as [h|]; [| apply hooked_refl].
  destruct (RequestReceived h); [| apply hooked_refl].
  by apply hooked_logged.
Qed.

Lemma callRequestRouted_hooked ctx h x :
  hooked x (callRequestRouted ctx h x).2.
Proof.
  unfold callRequestRouted. destruct h as [h|]; [| apply hooked_refl].
  destruct (RequestRouted h); [| apply hooked_refl].
  by apply hooked_logged.
Qed.

Lemma callResponsePrepared_hooked ctx h x :
  hooked x (callResponsePrepared ctx h x).2.
Proof.
  unfold callResponsePrepared. destruct h as [h|]; [| apply hooked_refl].
  destruct (ResponsePrepared h); [| apply hooked_refl].
  by apply hooked_logged.
Qed.

Lemma answered_hooked h x x' x'' :
  hooked x x' → answered h x' x'' → answered h x x''.
Proof.
  intros (_ & Hw & Hs & He) (Hw' & Hst & Hs' & He').
  unfold answered. rewrite Hw', Hs', Hw, Hs. repeat split; [exact Hst | lia].
Qed.

(** [writeError] gives one response. *)
Lemma writeError_answered ctx x err h :
  answered h x (writeError' ctx x err h).
Proof.
  unfold writeError, callError, callResponseSent, respWrite, WriteHeader,
    Header_Set, answered, hasResponseSent.
  destruct h as [h|]; cbn;
    [destruct (ErrorHook h); cbn; destruct (ResponseSent h); cbn |];
    rewrite ?sentCount_logged, ?errorCount_logged; cbn;
    unfold sentCount, errorCount; cbn;
    rewrite ?List.filter_app, ?length_app; cbn;
    (split; [reflexivity |]); (split; [eexists; reflexivity |]); split; lia.
Qed.

(** The success path of a handler gives one response as well. *)
Lemma serveMethod_answered {Req Resp : Type} name rty cty
    (decode : string → error + Req) (encode : Resp → error + string)
    call (s : server) ctx x req :
  answered (hooks s) x
    (after (serveMethod' name rty cty decode encode call s ctx x req)).
Proof.
  unfold serveMethod.
  destruct (callRequestRouted _ (hooks s) x) as [[ctx1 err1] x1] eqn:Hrouted.
  pose proof (callRequestRouted_hooked (WithMethodName ctx name) (hooks s) x) as Hx1.
  rewrite Hrouted in Hx1. cbn in Hx1.
  apply (answered_hooked _ _ _ _ Hx1).
  destruct err1 as [err1|]; [apply writeError_answered |].
  destruct (decode (Body req)) as [err|reqContent]; [apply writeError_answered |].
  destruct (call ctx1 reqContent) as [[respContent|] [err|] | r];
    try apply writeError_answered.
  destruct (callResponsePrepared ctx1 (hooks s) x1) as [ctx2 x2] eqn:Hprepared.
  pose proof (callResponsePrepared_hooked ctx1 (hooks s) x1) as Hx2.
  rewrite Hprepared in Hx2. cbn in Hx2.
  apply (answered_hooked _ _ _ _ Hx2).
  destruct (encode respContent) as [err|respBytes]; [apply writeError_answered |].
  unfold respWrite, callError, callResponseSent, WriteHeader, Header_Set,
    answered, hasResponseSent. cbn.
  destruct (writeFails _ respBytes) as [[n err]|]; cbn;
    destruct (hooks s) as [h|]; cbn;
    try destruct (ErrorHook h); cbn; try destruct (ResponseSent h); cbn;
    rewrite ?sentCount_logged, ?errorCount_logged; cbn;
    unfold sentCount, errorCount; cbn;
    rewrite ?List.filter_app, ?length_app; cbn;
    (split; [reflexivity |]); (split; [eexists; reflexivity |]); split; lia.
Qed.

(** Every request gets exactly one response: whatever the request, the
    hooks, the codecs and the service do, [ServeHTTP] writes the status
    line once, calls the [ResponseSent] hook once when there is one,
    and calls the [Error] hook at most once. *)
Theorem ServeHTTP_answers_once (s : server) x req :
  answered (hooks s) x (after (ServeHTTP' s x req)).
Proof.
  unfold ServeHTTP.
  destruct (callRequestReceived _ (hooks s) x) as [[ctx1 err1] x1] eqn:Hreceived.
  pose proof (callRequestReceived_hooked
                (WithServiceName (WithPackageName reqContext "decode.iot.encoder")
                   "Encoder") (hooks s) x) as Hx1.
  rewrite Hreceived in Hx1. cbn in Hx1.
  apply (answered_hooked _ _ _ _ Hx1).
  destruct err1 as [err1|]; [apply writeError_answered |].
  destruct (negb (String.eqb (Method req) "POST")); [apply writeError_answered |].
  unfold serveCreateStream, serveDeleteStream, serveByContentType,
    serveCreateStreamJSON, serveCreateStreamProtobuf,
    serveDeleteStreamJSON, serveDeleteStreamProtobuf.
  repeat match goal with
         | |- context [if ?b then _ else _] => destruct b
         end;
    first [apply writeError_answered | apply serveMethod_answered].
Qed.

(** The context the handlers start from. *)
Local Abbreviation ctx0 :=
  (WithServiceName (WithPackageName reqContext "decode.iot.encoder") "Encoder").

(** The service is consulted only for a POST to one of the two routes
    with a JSON or Protobuf content type: for any other request the
    response does not depend on the service, and the handler does not
    panic. *)
Theorem ServeHTTP_unrouted_ignores_service svc1 svc2 h x req :
  ¬ (Method req = "POST" ∧
     (Path req = "/twirp/decode.iot.encoder.Encoder/CreateStream" ∨
      Path req = "/twirp/decode.iot.encoder.Encoder/DeleteStream") ∧
     (mediaType' (encoder.header_get "Content-Type" (Header req))
        = "application/json" ∨
      mediaType' (encoder.header_get "Content-Type" (Header req))
        = "application/protobuf")) →
  ServeHTTP' (NewEncoderServer svc1 h) x req =
    ServeHTTP' (NewEncoderServer svc2 h) x req ∧
  panicked (ServeHTTP' (NewEncoderServer svc1 h) x req) = None.
Proof.
  intros Hunrouted. unfold ServeHTTP, NewEncoderServer. cbn [hooks svc].
  destruct (callRequestReceived ctx0 h x) as [[ctx1 err1] x1].
  destruct err1 as [err1|]; [split; reflexivity |].
  destruct (String.eqb_spec (Method req) "POST") as [Hpost|Hpost]; cbn [negb];
    [| split; reflexivity].
  unfold serveCreateStream, serveDeleteStream, serveByContentType. cbn [hooks].
  destruct (String.eqb_spec (Path req)
              "/twirp/decode.iot.encoder.Encoder/CreateStream") as [Hc|Hc];
    [| destruct (String.eqb_spec (Path req)
                   "/twirp/decode.iot.encoder.Encoder/DeleteStream") as [Hd|Hd];
       [| split; reflexivity]].
  all: destruct (String.eqb_spec
                   (mediaType' (encoder.header_get "Content-Type" (Header req)))
                   "application/json") as [Hj|Hj]; [exfalso; tauto |].
  all: destruct (String.eqb_spec
                   (mediaType' (encoder.header_get "Content-Type" (Header req)))
                   "application/protobuf") as [Hp|Hp]; [exfalso; tauto |].
  all: split; reflexivity.
Qed.

(** Routing follows the path prefix the handler is mounted under: a
    POST to [EncoderPathPrefix] followed by a name goes to the handler
    of [CreateStream] or [DeleteStream] when the name is exactly that,
    and is answered with a route error for every other name. *)
Theorem ServeHTTP_routes_by_name (s : server) x req name ctx1 x1 :
  Method req = "POST" →
  Path req = EncoderPathPrefix +:+ name →
  callRequestReceived ctx0 (hooks s) x = (ctx1, None, x1) →
  ServeHTTP' s x req =
    if String.eqb name "CreateStream" then serveCreateStream' s ctx1 x1 req
    else if String.eqb name "DeleteStream" then serveDeleteStream' s ctx1 x1 req
    else returned
           (writeError' ctx1 x1
              (inl (encoder.badRouteError
                      ("no handler for path " +:+ Quote (Path req))
                      "POST" (Path req)))
              (hooks s)).
Proof.
  intros Hpost Hpath Hreceived. unfold ServeHTTP.
  rewrite Hreceived, Hpost, Hpath. reflexivity.
Qed.

(** An error of the [RequestReceived] hook is the whole answer: the
    request is not looked at. *)
Theorem ServeHTTP_RequestReceived_error (s : server) x req req' h f err :
  hooks s = Some h →
  RequestReceived h = Some f →
  (f ctx0).2 = Some err →
  ServeHTTP' s x req = ServeHTTP' s x req' ∧
  ServeHTTP' s x req =
    returned (writeError' (f ctx0).1 (logged x (EvRequestReceived ctx0)) err
                (Some h)).
Proof.
  intros Hh Hf Herr. unfold ServeHTTP, callRequestReceived.
  rewrite Hh, Hf. destruct (f ctx0) as [ctx1 e1]. cbn in Herr. subst e1.
  split; reflexivity.
Qed.

Lemma append_cons c h rest : String c h +:+ rest = String c (h +:+ rest).
Proof. reflexivity. Qed.

Lemma index_semicolon_app h p :
  encoder.index_semicolon h = String.length h →
  encoder.index_semicolon (h +:+ ";" +:+ p) = String.length h.
Proof.
  induction h as [|c h IH]; intros Hno; [reflexivity |].
  rewrite append_cons. cbn [encoder.index_semicolon String.length] in Hno |- *.
  destruct (Ascii.eqb c (Ascii.ascii_of_nat 59)); [discriminate Hno |].
  f_equal. apply IH. congruence.
Qed.

Lemma string_take_app h rest :
  encoder.string_take (String.length h) (h +:+ rest) = h.
Proof.
  induction h as [|c h IH]; [destruct rest; reflexivity |].
  rewrite append_cons. cbn [encoder.string_take String.length].
  f_equal. exact IH.
Qed.

Lemma string_take_all h : encoder.string_take (String.length h) h = h.
Proof. induction h as [|c h IH]; [reflexivity |]. cbn. f_equal. exact IH. Qed.

(** Parameters of the content type are ignored: what follows the first
    [;] of the header plays no part in the choice of the handler, so a
    JSON media type followed by parameters is served as JSON. *)
Theorem serveCreateStream_ignores_parameters (s : server) ctx x req h p :
  encoder.index_semicolon h = String.length h →
  encoder.header_get "Content-Type" (Header req) = h +:+ ";" +:+ p →
  mediaType' (h +:+ ";" +:+ p) = mediaType' h ∧
  (mediaType' h = "application/json" →
   serveCreateStream' s ctx x req = serveCreateStreamJSON' s ctx x req).
Proof.
  intros Hno Hheader.
  assert (Hmt : mediaType' (h +:+ ";" +:+ p) = mediaType' h).
  { unfold mediaType. cbv zeta. rewrite (index_semicolon_app h p Hno), Hno.
    rewrite string_take_app, string_take_all. reflexivity. }
  split; [exact Hmt |]. intros Hjson.
  unfold serveCreateStream, serveByContentType. cbv zeta.
  rewrite Hheader, Hmt, Hjson. reflexivity.
Qed.

Lemma writeError_fresh ctx err :
  (∀ w p, writeFails w p = None) →
  writeError' ctx fresh err None =
    let twerr := match err with
                 | inl twerr => twerr
                 | inr err => InternalErrorWith err
                 end in
    {| resp := {| rw_status :=
                    Some (ServerHTTPStatusFromErrorCode (twirp.Code twerr));
                  rw_header := [("Content-Type", "application/json")];
                  rw_body := encoder.marshalErrorToJSON jsonMarshal twerr |};
       headerWrites := 1; hooklog := [] |}.
Proof.
  intros Hwrite. unfold writeError, respWrite. cbn.
  rewrite Hwrite. reflexivity.
Qed.

Local Abbreviation answer' := (answer writeFails).

(** On a connection that takes every write, the whole body is sent. *)
Lemma answer_complete status contentType body :
  (∀ w p, writeFails w p = None) →
  answer' status contentType body =
    {| rw_status := Some status;
       rw_header := [("Content-Type", contentType)];
       rw_body := body |}.
Proof. intros Hwrite. unfold answer. cbn. rewrite Hwrite. reflexivity. Qed.

(** The hook calls before the service is reached leave the response
    alone. *)
Lemma hooked_resp_fresh x1 x2 :
  hooked fresh x1 → hooked x1 x2 → resp x2 = resp fresh.
Proof. intros (Hr1 & _) (Hr2 & _). rewrite Hr2. exact Hr1. Qed.

(** What [writeError] writes to a connection nothing has been written
    to, whatever the hooks are. *)
Lemma writeError_answer ctx x err h :
  resp x = resp fresh →
  let twerr := match err with
               | inl twerr => twerr
               | inr err => InternalErrorWith err
               end in
  resp (writeError' ctx x err h) =
    answer' (ServerHTTPStatusFromErrorCode (twirp.Code twerr)) "application/json"
      (encoder.marshalErrorToJSON jsonMarshal twerr) ∧
  headerWrites (writeError' ctx x err h) = S (headerWrites x).
Proof.
  intros Hresp. unfold writeError, callError, callResponseSent, respWrite,
    WriteHeader, Header_Set, answer.
  destruct h as [h|]; cbn;
    [destruct (ErrorHook h); cbn; destruct (ResponseSent h); cbn |];
    rewrite Hresp; cbn; split; reflexivity.
Qed.

#[local] Opaque writeError.

(** The context in which the service is called for [CreateStream]. *)
Local Abbreviation ctxCreate := (WithMethodName ctx0 "CreateStream").

(** A panic of the service is answered and then raised again: the
    response is the [internal] error "Internal service panic", as JSON
    under the status of that code, and the handler panics with the
    service's own value. *)
Theorem ServeHTTP_service_panic (s : server) req reqContent r :
  hooks s = None →
  (∀ w p, writeFails w p = None) →
  Method req = "POST" →
  Path req = "/twirp/decode.iot.encoder.Encoder/CreateStream" →
  mediaType' (encoder.header_get "Content-Type" (Header req)) = "application/json" →
  jsonUnmarshalCreate (Body req) = inr reqContent →
  CreateStream (svc s) ctxCreate reqContent = SvcPanics r →
  ServeHTTP' s fresh req =
    {| after :=
         {| resp :=
              {| rw_status := Some (ServerHTTPStatusFromErrorCode twirp.Internal);
                 rw_header := [("Content-Type", "application/json")];
                 rw_body := encoder.marshalErrorToJSON jsonMarshal
                              (twirp.InternalError "Internal service panic") |};
            headerWrites := 1; hooklog := [] |};
       panicked := Some r |}.
Proof.
  intros Hhooks Hwrite Hpost Hpath Hmt Hbody Hcall.
  unfold ServeHTTP, callRequestReceived. rewrite Hhooks, Hpost, Hpath. cbn.
  unfold serveCreateStream, serveByContentType. cbv zeta. rewrite Hmt. cbn.
  unfold serveCreateStreamJSON, serveMethod, callRequestRouted.
  rewrite Hhooks, Hbody. cbn. rewrite Hcall.
  rewrite (writeError_fresh _ _ Hwrite). reflexivity.
Qed.



End HandlerProperties.

(** ** Concrete runs of the handler and of the client's error reader *)

Lemma errorFromResponse_redirect_witness :
  twirp.MetaMap
    (encoder.errorFromResponse sample.jsonUnmarshal sample.Quote
       sample.StatusText sample.IsValidErrorCode sample.InternalErrorWith
       {| encoder.StatusCode := 302;
          encoder.RespHeader := [("Location", "http://elsewhere")];
          encoder.RespBody := inr "moved" |}) !! "location"
    = Some "http://elsewhere".
Proof.
  destruct (errorFromResponse_redirect sample.jsonUnmarshal sample.Quote
              sample.StatusText sample.IsValidErrorCode sample.InternalErrorWith
              {| encoder.StatusCode := 302;
                 encoder.RespHeader := [("Location", "http://elsewhere")];
                 encoder.RespBody := inr "moved" |}
              (inr "moved") eq_refl) as (_ & Hloc & _).
  exact Hloc.
Defined.

Lemma errorFromResponse_decodes_witness :
  encoder.errorFromResponse sample.jsonUnmarshal sample.Quote
    sample.StatusText sample.IsValidErrorCode sample.InternalErrorWith
    {| encoder.StatusCode := 404; encoder.RespHeader := [];
       encoder.RespBody := inr "bad_route no handler" |}
    = twirp.NewError "bad_route" "no handler".
Proof.
  exact (errorFromResponse_decodes sample.jsonUnmarshal sample.Quote
           sample.StatusText sample.IsValidErrorCode sample.InternalErrorWith
           {| encoder.StatusCode := 404; encoder.RespHeader := [];
              encoder.RespBody := inr "bad_route no handler" |}
           "bad_route no handler"
           {| encoder.Code := "bad_route"; encoder.Msg := "no handler";
              encoder.Meta := ∅ |}
           eq_refl eq_refl eq_refl eq_refl).
Defined.

Lemma errorFromResponse_marshalErrorToJSON_witness :
  encoder.errorFromResponse sample.jsonUnmarshal sample.Quote
    sample.StatusText sample.IsValidErrorCode sample.InternalErrorWith
    {| encoder.StatusCode := 404; encoder.RespHeader := [];
       encoder.RespBody :=
         inr (encoder.marshalErrorToJSON sample.jsonMarshal
                (twirp.NewError twirp.BadRoute "no handler")) |}
    = twirp.NewError twirp.BadRoute "no handler".
Proof.
  apply (errorFromResponse_marshalErrorToJSON sample.jsonMarshal
           sample.jsonUnmarshal sample.Quote sample.StatusText
           sample.IsValidErrorCode sample.InternalErrorWith
           (twirp.NewError twirp.BadRoute "no handler") 404 []);
    [reflexivity | cbn; lia | reflexivity | reflexivity].
Defined.

Lemma errorFromResponse_intermediary_witness :
  twirp.MetaMap
    (encoder.errorFromResponse sample.jsonUnmarshal sample.Quote
       sample.StatusText sample.IsValidErrorCode sample.InternalErrorWith
       {| encoder.StatusCode := 503; encoder.RespHeader := [];
          encoder.RespBody := inr "<html>busy</html>" |}) !! "body"
    = Some "<html>busy</html>".
Proof.
  destruct (errorFromResponse_intermediary sample.jsonUnmarshal sample.Quote
              sample.StatusText sample.IsValidErrorCode sample.InternalErrorWith
              {| encoder.StatusCode := 503; encoder.RespHeader := [];
                 encoder.RespBody := inr "<html>busy</html>" |}
              "<html>busy</html>" eq_refl eq_refl eq_refl) as (Hbody & _).
  exact Hbody.
Defined.

Lemma ServeHTTP_unrouted_ignores_service_witness :
  rw_status
    (encoderServer.resp
       (encoderServer.after
          (sample.ServeHTTP (sample.server None) encoderServer.fresh
             (sample.request "GET"
                "/twirp/decode.iot.encoder.Encoder/CreateStream"
                "application/json" "dev-1")))) = Some 404%Z ∧
  encoderServer.panicked
    (sample.ServeHTTP (sample.server None) encoderServer.fresh
       (sample.request "GET" "/twirp/decode.iot.encoder.Encoder/CreateStream"
          "application/json" "dev-1")) = None.
Proof.
  split; [reflexivity |].
  refine (proj2 (ServeHTTP_unrouted_ignores_service string string string string
           sample.jsonMarshal sample.Quote sample.ToLower sample.TrimSpace
           sample.InternalErrorWith sample.ServerHTTPStatusFromErrorCode
           sample.ReadAll sample.writeFails sample.unmarshal sample.marshal
           sample.unmarshal sample.marshal sample.unmarshal sample.marshal
           sample.unmarshal sample.marshal
           sample.service sample.service None encoderServer.fresh
           (sample.request "GET" "/twirp/decode.iot.encoder.Encoder/CreateStream"
              "application/json" "dev-1") _)).
  intros [Hpost _]. discriminate Hpost.
Defined.

Lemma ServeHTTP_routes_by_name_witness :
  rw_body
    (encoderServer.resp
       (encoderServer.after
          (sample.ServeHTTP (sample.server None) encoderServer.fresh
             (sample.request "POST"
                "/twirp/decode.iot.encoder.Encoder/CreateStream"
                "application/json" "dev-1")))) = "uid-of-dev-1" ∧
  rw_status
    (encoderServer.resp
       (encoderServer.after
          (sample.ServeHTTP (sample.server None) encoderServer.fresh
             (sample.request "POST"
                "/twirp/decode.iot.encoder.Encoder/UpdateStream"
                "application/json" "dev-1")))) = Some 404%Z.
Proof.
  unfold sample.ServeHTTP.
  rewrite (ServeHTTP_routes_by_name string string string string
           sample.jsonMarshal sample.Quote sample.ToLower sample.TrimSpace
           sample.InternalErrorWith sample.ServerHTTPStatusFromErrorCode
           sample.ReadAll sample.writeFails sample.unmarshal sample.marshal
           sample.unmarshal sample.marshal sample.unmarshal sample.marshal
           sample.unmarshal sample.marshal
           (sample.server None) encoderServer.fresh
           (sample.request "POST" "/twirp/decode.iot.encoder.Encoder/CreateStream"
              "application/json" "dev-1")
           "CreateStream" _ _ eq_refl eq_refl eq_refl).
  rewrite (ServeHTTP_routes_by_name string string string string
           sample.jsonMarshal sample.Quote sample.ToLower sample.TrimSpace
           sample.InternalErrorWith sample.ServerHTTPStatusFromErrorCode
           sample.ReadAll sample.writeFails sample.unmarshal sample.marshal
           sample.unmarshal sample.marshal sample.unmarshal sample.marshal
           sample.unmarshal sample.marshal
           (sample.server None) encoderServer.fresh
           (sample.request "POST" "/twirp/decode.iot.encoder.Encoder/UpdateStream"
              "application/json" "dev-1")
           "UpdateStream" _ _ eq_refl eq_refl eq_refl).
  split; reflexivity.
Defined.

Lemma ServeHTTP_RequestReceived_error_witness :
  sample.ServeHTTP (sample.server (Some sample.refusing)) encoderServer.fresh
    (sample.request "POST" "/twirp/decode.iot.encoder.Encoder/CreateStream"
       "application/json" "dev-1") =
  sample.ServeHTTP (sample.server (Some sample.refusing)) encoderServer.fresh
    (sample.request "GET" "/" "text/plain" EmptyString).
Proof.
  refine (proj1 (ServeHTTP_RequestReceived_error string string string string
           sample.jsonMarshal sample.Quote sample.ToLower sample.TrimSpace
           sample.InternalErrorWith sample.ServerHTTPStatusFromErrorCode
           sample.ReadAll sample.writeFails sample.unmarshal sample.marshal
           sample.unmarshal sample.marshal sample.unmarshal sample.marshal
           sample.unmarshal sample.marshal
           (sample.server (Some sample.refusing)) encoderServer.fresh
           _ _ sample.refusing _ _ eq_refl eq_refl eq_refl)).
Defined.

Lemma serveCreateStream_ignores_parameters_witness :
  encoderServer.mediaType sample.ToLower sample.TrimSpace
    "application/json; charset=utf-8" = "application/json".
Proof.
  destruct (serveCreateStream_ignores_parameters string string string string
           sample.jsonMarshal sample.Quote sample.ToLower sample.TrimSpace
           sample.InternalErrorWith sample.ServerHTTPStatusFromErrorCode
           sample.ReadAll sample.writeFails sample.unmarshal sample.marshal
           sample.unmarshal sample.marshal
           (sample.server None) encoderServer.reqContext encoderServer.fresh
           (sample.request "POST" "/twirp/decode.iot.encoder.Encoder/CreateStream"
              "application/json; charset=utf-8" "dev-1")
           "application/json" " charset=utf-8" eq_refl eq_refl) as [Hmt _].
  exact Hmt.
Defined.

Lemma ServeHTTP_service_panic_witness :
  encoderServer.panicked
    (sample.ServeHTTP (sample.server None) encoderServer.fresh
       (sample.request "POST" "/twirp/decode.iot.encoder.Encoder/CreateStream"
          "application/json" "panic")) = Some "boom".
Proof.
  unfold sample.ServeHTTP.
  rewrite (ServeHTTP_service_panic string string string string
           sample.jsonMarshal sample.Quote sample.ToLower sample.TrimSpace
           sample.InternalErrorWith sample.ServerHTTPStatusFromErrorCode
           sample.ReadAll sample.writeFails sample.unmarshal sample.marshal
           sample.unmarshal sample.marshal sample.unmarshal sample.marshal
           sample.unmarshal sample.marshal
           (sample.server None)
           (sample.request "POST" "/twirp/decode.iot.encoder.Encoder/CreateStream"
              "application/json" "panic")
           "panic" "boom" eq_refl (λ _ _, eq_refl) eq_refl eq_refl eq_refl
           eq_refl eq_refl).
  reflexivity.
Defined.



(** ** The client *)

Lemma header_get_set_eq key val h :
  encoder.header_get key (encoder.header_set key val h) = val.
Proof.
  unfold encoder.header_get, encoder.header_set. cbn.
  rewrite String.eqb_refl. reflexivity.
Qed.

Lemma header_get_set_ne key key' val h :
  key ≠ key' →
  encoder.header_get key (encoder.header_set key' val h) = encoder.header_get key h.
Proof.
  intros Hne. unfold encoder.header_get, encoder.header_set. cbn.
  destruct (String.eqb_spec key' key) as [Heq|_]; [congruence |].
  induction h as [|[k v] h IH]; [reflexivity |]. cbn.
  destruct (String.eqb_spec k key') as [->|Hk]; cbn.
  - destruct (String.eqb_spec key' key) as [Heq|_]; [congruence | exact IH].
  - destruct (String.eqb k key); [reflexivity | exact IH].
Qed.

Section ClientProperties.

Import encoderClient.

Variables In Out : Type.
Variable protoMarshal : In → error + string.
Variable protoUnmarshal : string → error + Out.
Variable jsonpbMarshal : In → error + string.
Variable jsonpbUnmarshal : string → error + Out.
Variable jsonUnmarshal : string → option encoder.twerrJSON.
Variable Quote : string → string.
Variable StatusText : Z → string.
Variable IsValidErrorCode : twirp.ErrorCode → bool.
Variable InternalErrorWith : error → twirp.Error.
Variable NewRequest : string → string → string → error + HTTPRequest.
Variable Do : HTTPRequest → error + encoder.Response.

Local Abbreviation newRequest := (encoderClient.newRequest NewRequest).
Local Abbreviation doProtobufRequest :=
  (encoderClient.doProtobufRequest In Out protoMarshal protoUnmarshal jsonUnmarshal Quote
     StatusText IsValidErrorCode InternalErrorWith NewRequest Do).
Local Abbreviation doJSONRequest :=
  (encoderClient.doJSONRequest In Out jsonpbMarshal jsonpbUnmarshal jsonUnmarshal Quote
     StatusText IsValidErrorCode InternalErrorWith NewRequest Do).
Local Abbreviation errorFromResponse' :=
  (encoder.errorFromResponse jsonUnmarshal Quote StatusText IsValidErrorCode
     InternalErrorWith).
Local Abbreviation clientError' := (encoder.clientError InternalErrorWith).

(** The headers of a request built by [newRequest]: [Accept] and
    [Content-Type] are the content type asked for and [Twirp-Version]
    is v5.5.0, whatever the custom headers of the context say; every
    other custom header is kept. *)
Theorem newRequest_headers ctx url reqBody contentType req :
  newRequest ctx url reqBody contentType = inr req →
  encoder.header_get "Accept" (rHeader req) = contentType ∧
  encoder.header_get "Content-Type" (rHeader req) = contentType ∧
  encoder.header_get "Twirp-Version" (rHeader req) = "v5.5.0" ∧
  ∀ custom key,
    customHeader ctx = Some custom →
    key ≠ "Accept" → key ≠ "Content-Type" → key ≠ "Twirp-Version" →
    encoder.header_get key (rHeader req) = encoder.header_get key custom.
Proof.
  unfold encoderClient.newRequest, getCustomHTTPReqHeaders, Header_Set. intros Hreq.
  destruct (NewRequest "POST" url reqBody) as [err|req0]; [discriminate Hreq |].
  injection Hreq as <-. cbn [rHeader].
  split; [rewrite !header_get_set_ne by discriminate; apply header_get_set_eq |].
  split; [rewrite !header_get_set_ne by discriminate; apply header_get_set_eq |].
  split; [apply header_get_set_eq |].
  intros custom key Hcustom Ha Hc Ht. rewrite Hcustom. cbn [rHeader].
  rewrite !header_get_set_ne by assumption. reflexivity.
Qed.

(** The body of a response is closed exactly once when the HTTP client
    returned a response and never otherwise, and at most one request is
    handed to the HTTP client, on every path of both request
    functions. *)
Theorem doRequest_closes_body Close ctx url in_ :
  let closed_once (r : result Out) :=
    length (requests r) ≤ 1 ∧
    closes r = length (omap (λ req, match Do req with
                                    | inr resp => Some resp
                                    | inl _ => None
                                    end) (requests r)) in
  closed_once (doProtobufRequest Close ctx url in_) ∧
  closed_once (doJSONRequest Close ctx url in_).
Proof.
  cbv zeta. unfold encoderClient.doProtobufRequest, encoderClient.doJSONRequest, closing, failed. split.
  - destruct (protoMarshal in_); [cbn; lia |].
    destruct (Err ctx 0); [cbn; lia |].
    destruct (newRequest ctx url _ _) as [|req]; [cbn; lia |].
    destruct (Do req) as [|resp] eqn:HDo; cbn; rewrite HDo; cbn; lia.
  - destruct (jsonpbMarshal in_); [cbn; lia |].
    destruct (Err ctx 0); [cbn; lia |].
    destruct (newRequest ctx url _ _) as [|req]; [cbn; lia |].
    destruct (Do req) as [|resp] eqn:HDo; cbn; rewrite HDo; cbn; lia.
Qed.

(** A context that is already done stops the call before anything is
    sent. *)
Theorem doRequest_context_done Close ctx url in_ err :
  Err ctx 0 = Some err →
  requests (doProtobufRequest Close ctx url in_) = [] ∧
  is_Some (ret (doProtobufRequest Close ctx url in_)) ∧
  requests (doJSONRequest Close ctx url in_) = [] ∧
  is_Some (ret (doJSONRequest Close ctx url in_)).
Proof.
  intros Hdone. unfold encoderClient.doProtobufRequest, encoderClient.doJSONRequest, failed. rewrite Hdone.
  destruct (protoMarshal in_), (jsonpbMarshal in_); cbn; eauto.
Qed.

(** A response with a status other than 200 is turned into the error
    [errorFromResponse] reads from it, whether or not closing the body
    fails. *)
Theorem doRequest_non200 Close ctx url in_ reqBodyBytes req resp :
  protoMarshal in_ = inr reqBodyBytes →
  Err ctx 0 = None →
  newRequest ctx url reqBodyBytes "application/protobuf" = inr req →
  Do req = inr resp →
  Err ctx 1 = None →
  encoder.StatusCode resp ≠ 200%Z →
  doProtobufRequest Close ctx url in_ =
    {| ret := Some (errorFromResponse' resp); out := None;
       requests := [req]; closes := 1 |}.
Proof.
  intros Hmarshal Hctx0 Hreq HDo Hctx1 Hstatus. unfold encoderClient.doProtobufRequest.
  rewrite Hmarshal, Hctx0, Hreq, HDo, Hctx1.
  destruct (Z.eqb_spec (encoder.StatusCode resp) 200) as [Heq|_];
    [contradiction |].
  unfold closing. cbn. destruct (Close resp); reflexivity.
Qed.

(** The Protobuf request returns nil only when everything went well:
    the request was marshalled, built and sent, the response had
    status 200, its body was read, parsed and closed without error, and
    the context was not done at any of the three times it was asked;
    [out] then holds the parsed response. *)
Theorem doProtobufRequest_nil Close ctx url in_ :
  ret (doProtobufRequest Close ctx url in_) = None →
  ∃ reqBodyBytes req resp respBodyBytes o,
    protoMarshal in_ = inr reqBodyBytes ∧
    newRequest ctx url reqBodyBytes "application/protobuf" = inr req ∧
    Do req = inr resp ∧
    encoder.StatusCode resp = 200%Z ∧
    encoder.RespBody resp = inr respBodyBytes ∧
    protoUnmarshal respBodyBytes = inr o ∧
    Close resp = None ∧
    (∀ k, k < 3 → Err ctx k = None) ∧
    doProtobufRequest Close ctx url in_ =
      {| ret := None; out := Some o; requests := [req]; closes := 1 |}.
Proof.
  unfold encoderClient.doProtobufRequest, closing, failed. intros Hnil.
  destruct (protoMarshal in_) as [|reqBodyBytes] eqn:Hmarshal;
    [discriminate Hnil |].
  destruct (Err ctx 0) eqn:H0; [discriminate Hnil |].
  destruct (newRequest ctx url reqBodyBytes _) as [|req] eqn:Hreq;
    [discriminate Hnil |].
  destruct (Do req) as [|resp] eqn:HDo; [discriminate Hnil |].
  destruct (Err ctx 1) eqn:H1; [cbn in Hnil; discriminate Hnil |].
  destruct (Z.eqb_spec (encoder.StatusCode resp) 200) as [Hstatus|];
    [| cbn in Hnil; discriminate Hnil].
  destruct (encoder.RespBody resp) as [|respBodyBytes] eqn:Hbody;
    [cbn in Hnil; discriminate Hnil |].
  destruct (Err ctx 2) eqn:H2; [cbn in Hnil; discriminate Hnil |].
  destruct (protoUnmarshal respBodyBytes) as [|o] eqn:Hparse;
    [cbn in Hnil; discriminate Hnil |].
  cbn in Hnil |- *. destruct (Close resp) eqn:Hclose; [discriminate Hnil |].
  exists reqBodyBytes, req, resp, respBodyBytes, o.
  repeat (split; [reflexivity || assumption |]).
  split; [| reflexivity].
  intros k Hk. destruct k as [|[|[|k]]]; (assumption || lia).
Qed.

(** An error of closing the body never replaces another error: what a
    request returns when closing fails is what it returns when closing
    succeeds, unless that is nil. *)
Theorem doRequest_close_error_last Close ctx url in_ e :
  (ret (doProtobufRequest (λ _, None) ctx url in_) = Some e →
   ret (doProtobufRequest Close ctx url in_) = Some e) ∧
  (ret (doJSONRequest (λ _, None) ctx url in_) = Some e →
   ret (doJSONRequest Close ctx url in_) = Some e).
Proof.
  unfold encoderClient.doProtobufRequest, encoderClient.doJSONRequest, closing, failed. split.
  - destruct (protoMarshal in_) as [|reqBodyBytes]; [trivial |].
    destruct (Err ctx 0); [trivial |].
    destruct (newRequest ctx url reqBodyBytes _) as [|req]; [trivial |].
    destruct (Do req) as [|resp]; [trivial |]. cbn.
    match goal with
    | |- context [fst ?b] => destruct (fst b); [trivial | discriminate]
    end.
  - destruct (jsonpbMarshal in_) as [|reqBody]; [trivial |].
    destruct (Err ctx 0); [trivial |].
    destruct (newRequest ctx url reqBody _) as [|req]; [trivial |].
    destruct (Do req) as [|resp]; [trivial |]. cbn.
    match goal with
    | |- context [fst ?b] => destruct (fst b); [trivial | discriminate]
    end.
Qed.

(** The JSON request asks the context a last time after parsing the
    response: when the context is done by then, the call fails although
    the response has been parsed into [out]. *)
Theorem doJSONRequest_done_after_parse Close ctx url in_ reqBody req resp
    respBody o err :
  jsonpbMarshal in_ = inr reqBody →
  Err ctx 0 = None →
  newRequest ctx url reqBody "application/json" = inr req →
  Do req = inr resp →
  Err ctx 1 = None →
  encoder.StatusCode resp = 200%Z →
  encoder.RespBody resp = inr respBody →
  jsonpbUnmarshal respBody = inr o →
  Err ctx 2 = Some err →
  doJSONRequest Close ctx url in_ =
    {| ret := Some (clientError' "aborted because context was done" err);
       out := Some o; requests := [req]; closes := 1 |}.
Proof.
  intros Hmarshal H0 Hreq HDo H1 Hstatus Hbody Hparse H2. unfold encoderClient.doJSONRequest.
  rewrite Hmarshal, H0, Hreq, HDo, H1, Hstatus, Hbody, Hparse, H2.
  unfold closing. cbn. destruct (Close resp); reflexivity.
Qed.

End ClientProperties.

Lemma newRequest_headers_witness :
  ∃ req,
    encoderClient.newRequest sample.NewRequest
      (sample.background (Some [("Content-Type", "text/plain"); ("X-Trace", "7")]))
      "http://enc/twirp" "payload" "application/protobuf" = inr req ∧
    encoder.header_get "Content-Type" (encoderClient.rHeader req) =
      "application/protobuf" ∧
    encoder.header_get "X-Trace" (encoderClient.rHeader req) = "7".
Proof.
  eexists. split; [reflexivity |].
  destruct (newRequest_headers sample.NewRequest
              (sample.background
                 (Some [("Content-Type", "text/plain"); ("X-Trace", "7")]))
              "http://enc/twirp" "payload" "application/protobuf" _ eq_refl)
    as (_ & Hct & _ & Hcustom).
  split; [exact Hct |].
  rewrite (Hcustom _ "X-Trace" eq_refl); [reflexivity | discriminate ..].
Defined.

Lemma doRequest_context_done_witness :
  encoderClient.requests
    (sample.doProtobufRequest (sample.answering 200 "ok") (λ _, None)
       sample.cancelled "http://enc/twirp" "dev-1") = [].
Proof.
  destruct (doRequest_context_done string string sample.marshal sample.unmarshal
              sample.marshal sample.unmarshal sample.jsonUnmarshal sample.Quote
              sample.StatusText sample.IsValidErrorCode sample.InternalErrorWith
              sample.NewRequest (sample.answering 200 "ok") (λ _, None)
              sample.cancelled "http://enc/twirp" "dev-1"
              (errorString "context canceled") eq_refl) as (Hnone & _).
  exact Hnone.
Defined.

Lemma doRequest_non200_witness :
  encoderClient.ret
    (sample.doProtobufRequest (sample.answering 404 "bad_route no handler")
       (λ _, Some (errorString "broken pipe"))
       (sample.background None) "http://enc/twirp" "dev-1")
    = Some (twirp.NewError "bad_route" "no handler").
Proof.
  unfold sample.doProtobufRequest.
  rewrite (doRequest_non200 string string sample.marshal sample.unmarshal
             sample.jsonUnmarshal sample.Quote sample.StatusText
             sample.IsValidErrorCode sample.InternalErrorWith sample.NewRequest
             (sample.answering 404 "bad_route no handler")
             (λ _, Some (errorString "broken pipe"))
             (sample.background None) "http://enc/twirp" "dev-1"
             _ _ _ eq_refl eq_refl eq_refl eq_refl eq_refl
             ltac:(discriminate)).
  reflexivity.
Defined.

Lemma doProtobufRequest_nil_witness :
  ∃ o,
    encoderClient.out
      (sample.doProtobufRequest (sample.answering 200 "uid-1") (λ _, None)
         (sample.background None) "http://enc/twirp" "dev-1") = Some o.
Proof.
  destruct (doProtobufRequest_nil string string sample.marshal sample.unmarshal
              sample.jsonUnmarshal sample.Quote sample.StatusText
              sample.IsValidErrorCode sample.InternalErrorWith sample.NewRequest
              (sample.answering 200 "uid-1") (λ _, None)
              (sample.background None) "http://enc/twirp" "dev-1" eq_refl)
    as (rb & req & resp & body & o & _ & _ & _ & _ & _ & _ & _ & _ & Hrun).
  exists o. unfold sample.doProtobufRequest. rewrite Hrun. reflexivity.
Defined.

Lemma doRequest_close_error_last_witness :
  let r := sample.doProtobufRequest (sample.answering 404 "bad_route no handler")
             (λ _, Some (errorString "broken pipe"))
             (sample.background None) "http://enc/twirp" "dev-1" in
  encoderClient.ret r = Some (twirp.NewError "bad_route" "no handler") ∧
  length (encoderClient.requests r) = 1 ∧
  encoderClient.closes r = 1.
Proof.
  cbn zeta. split; [| split; reflexivity].
  apply (doRequest_close_error_last string string sample.marshal sample.unmarshal
           sample.marshal sample.unmarshal sample.jsonUnmarshal sample.Quote
           sample.StatusText sample.IsValidErrorCode sample.InternalErrorWith
           sample.NewRequest (sample.answering 404 "bad_route no handler")
           (λ _, Some (errorString "broken pipe"))
           (sample.background None) "http://enc/twirp" "dev-1").
  reflexivity.
Defined.

Lemma doJSONRequest_done_after_parse_witness :
  encoderClient.out
    (encoderClient.doJSONRequest string string sample.marshal sample.unmarshal
       sample.jsonUnmarshal sample.Quote sample.StatusText
       sample.IsValidErrorCode sample.InternalErrorWith sample.NewRequest
       (sample.answering 200 "uid-1") (λ _, None)
       {| encoderClient.customHeader := None;
          encoderClient.Err := λ k, if Nat.ltb k 2 then None
                                    else Some (errorString "deadline exceeded") |}
       "http://enc/twirp" "dev-1") = Some "uid-1".
Proof.
  rewrite (doJSONRequest_done_after_parse string string sample.marshal
             sample.unmarshal sample.jsonUnmarshal sample.Quote sample.StatusText
             sample.IsValidErrorCode sample.InternalErrorWith sample.NewRequest
             (sample.answering 200 "uid-1") (λ _, None)
             {| encoderClient.customHeader := None;
                encoderClient.Err := λ k, if Nat.ltb k 2 then None
                                          else Some (errorString "deadline exceeded") |}
             "http://enc/twirp" "dev-1" _ _ _ _ _ _
             eq_refl eq_refl eq_refl eq_refl eq_refl eq_refl eq_refl eq_refl
             eq_refl).
  reflexivity.
Defined.
